(** * CounterPoint: the report normaliser, the two fetchers and the history store

    A shallow embedding of [Dashboard.py] ([get_x_intel], [get_live_news],
    [verify_news], [parse_gemini_to_html], the sources column of
    [display_result] and the search handler) and of [utils.py]
    ([save_search], [load_history], [get_search_by_index]), with the
    properties of the design document stated over it, and further
    properties read off the code.

    Python strings are sequences of Unicode code points; they are modelled as
    lists of code points, so that the bullet glyph U+2022 is one character, as
    it is for [str.startswith] and [str.lstrip]. *)

From Stdlib Require Import List NArith ZArith Bool Lia String Ascii DecimalString.
Import ListNotations.

Set Implicit Arguments.

(* ================================================================== *)
(** * Python strings *)
(* ================================================================== *)

Module PyStr.

Definition char := N.
Definition pystr := list char.

(** An ASCII literal of the source, as code points. *)
Definition lit (s : string) : pystr := map N_of_ascii (list_ascii_of_string s).

Definition newline : char := 10%N.
Definition tab : char := 9%N.
Definition space : char := 32%N.
Definition percent : char := 37%N.
Definition star : char := 42%N.
Definition dash : char := 45%N.
(** U+2022 BULLET *)
Definition bullet : char := 8226%N.

Definition char_in (c : char) (chars : pystr) : bool :=
  existsb (N.eqb c) chars.

Definition pystr_eqb (a b : pystr) : bool :=
  if list_eq_dec N.eq_dec a b then true else false.

Definition is_empty (s : pystr) : bool :=
  match s with [] => true | _ :: _ => false end.

(** [str.isspace] of one character: the code points CPython's
    [_PyUnicode_IsWhitespace] accepts. *)
Definition isspace (c : char) : bool :=
  (((9 <=? c) && (c <=? 13)) || ((28 <=? c) && (c <=? 32))
   || (c =? 133) || (c =? 160) || (c =? 5760)
   || ((8192 <=? c) && (c <=? 8202))
   || (c =? 8232) || (c =? 8233) || (c =? 8239) || (c =? 8287)
   || (c =? 12288))%N.

(** [s.startswith(prefix)] *)
Fixpoint startswith (s prefix : pystr) {struct prefix} : bool :=
  match prefix, s with
  | [], _ => true
  | _ :: _, [] => false
  | p :: prefix', c :: s' => (c =? p)%N && startswith s' prefix'
  end.

(** [needle in hay] *)
Fixpoint contains (hay needle : pystr) : bool :=
  startswith hay needle
  || match hay with
     | [] => false
     | _ :: hay' => contains hay' needle
     end.

(** Dropping the leading run of characters that satisfy [p]. *)
Fixpoint lstrip_by (p : char -> bool) (s : pystr) : pystr :=
  match s with
  | [] => []
  | c :: s' => if p c then lstrip_by p s' else s
  end.

Definition rstrip_by (p : char -> bool) (s : pystr) : pystr :=
  rev (lstrip_by p (rev s)).

(** [s.lstrip(chars)] *)
Definition lstrip (s chars : pystr) : pystr :=
  lstrip_by (fun c => char_in c chars) s.

(** [s.strip()]: whitespace removed at both ends. *)
Definition strip (s : pystr) : pystr :=
  rstrip_by isspace (lstrip_by isspace s).

(** [s.replace(old, new)] for a non-empty [old]: occurrences are taken left
    to right and do not overlap; [skip] counts the characters of the
    occurrence just replaced that are still to be passed over. *)
Fixpoint replace_from (old new : pystr) (skip : nat) (s : pystr) : pystr :=
  match s with
  | [] => []
  | c :: s' =>
      match skip with
      | S k => replace_from old new k s'
      | O =>
          if startswith s old
          then new ++ replace_from old new (pred (List.length old)) s'
          else c :: replace_from old new 0 s'
      end
  end.

Definition replace (s old new : pystr) : pystr := replace_from old new 0 s.

(** [s.split(sep)] for a non-empty [sep]; [cur] is the piece being read, in
    reverse. *)
Fixpoint split_from (sep : pystr) (skip : nat) (cur s : pystr) : list pystr :=
  match s with
  | [] => [rev cur]
  | c :: s' =>
      match skip with
      | S k => split_from sep k cur s'
      | O =>
          if startswith s sep
          then rev cur :: split_from sep (pred (List.length sep)) [] s'
          else split_from sep 0 (c :: cur) s'
      end
  end.

Definition split (s sep : pystr) : list pystr := split_from sep 0 [] s.

(** [str.upper] maps each character through Unicode's full upper-case
    mapping (one character can become several: U+00DF gives "SS") and
    concatenates.  The Unicode table is not part of the repository: the
    functions below take the per-character mapping as a parameter. *)
Definition upper (toupper : char -> pystr) (s : pystr) : pystr :=
  flat_map toupper s.

(** The mapping on Basic Latin, where it is one to one, extended by the
    identity: it is Python's on every ASCII character and on every character
    without case, the bullet glyph among them. *)
Definition basic_toupper (c : char) : pystr :=
  if ((97 <=? c) && (c <=? 122))%N then [(c - 32)%N] else [c].

End PyStr.

Import PyStr.

(* ================================================================== *)
(** * Report normaliser: [parse_gemini_to_html] *)
(* ================================================================== *)

Module Normalizer.

(** The values [current_section] takes besides [None]. *)
Inductive section := Findings | Unverified | Summary.

(** The local variables of the scanning loop. *)
Record scan_state := {
  confidence : pystr;
  key_findings : list pystr;
  unverified : list pystr;
  summary : pystr;
  current_section : option section
}.

Definition initial : scan_state :=
  {| confidence := lit "N/A"; key_findings := []; unverified := [];
     summary := []; current_section := None |}.

Definition set_confidence (st : scan_state) (v : pystr) : scan_state :=
  {| confidence := v; key_findings := key_findings st;
     unverified := unverified st; summary := summary st;
     current_section := current_section st |}.

Definition set_section (st : scan_state) (s : section) : scan_state :=
  {| confidence := confidence st; key_findings := key_findings st;
     unverified := unverified st; summary := summary st;
     current_section := Some s |}.

Definition append_finding (st : scan_state) (b : pystr) : scan_state :=
  {| confidence := confidence st; key_findings := key_findings st ++ [b];
     unverified := unverified st; summary := summary st;
     current_section := current_section st |}.

Definition append_unverified (st : scan_state) (b : pystr) : scan_state :=
  {| confidence := confidence st; key_findings := key_findings st;
     unverified := unverified st ++ [b]; summary := summary st;
     current_section := current_section st |}.

Definition append_summary (st : scan_state) (s : pystr) : scan_state :=
  {| confidence := confidence st; key_findings := key_findings st;
     unverified := unverified st; summary := summary st ++ s;
     current_section := current_section st |}.

Definition marker : pystr := lit "CONFIDENCE:".

(** The characters given to [lstrip]: bullet, dash, star and space. *)
Definition glyphs : pystr := bullet :: lit "-* ".

(** [line.replace('CONFIDENCE:', '').strip().replace('%', '')] *)
Definition confidence_of (line : pystr) : pystr :=
  replace (strip (replace line marker [])) [percent] [].

(** [line.lstrip('•-* ').strip()] *)
Definition bullet_text (line : pystr) : pystr :=
  strip (lstrip line glyphs).

Definition is_bullet (line : pystr) : bool :=
  startswith line [bullet] || startswith line [dash] || startswith line [star].

Section Scan.

Variable toupper : char -> pystr.

(** One iteration of [for line in lines]. *)
Definition scan_line (st : scan_state) (raw_line : pystr) : scan_state :=
  let line := strip raw_line in
  if is_empty line then st
  else if startswith line marker then set_confidence st (confidence_of line)
  else if contains (upper toupper line) (lit "KEY FINDINGS")
       then set_section st Findings
  else if contains (upper toupper line) (lit "UNVERIFIED")
       then set_section st Unverified
  else if contains (upper toupper line) (lit "SUMMARY")
       then set_section st Summary
  else if is_bullet line then
    match current_section st with
    | Some Findings => append_finding st (bullet_text line)
    | Some Unverified => append_unverified st (bullet_text line)
    | _ => st
    end
  else
    match current_section st with
    | Some Summary => append_summary st (line ++ [space])
    | _ => st
    end.

Definition scan_lines (st : scan_state) (lines : list pystr) : scan_state :=
  fold_left scan_line lines st.

(** The scanning pass on the whole response. *)
Definition scan (gemini_response : pystr) : scan_state :=
  scan_lines initial (split gemini_response [newline]).

(** The markup is a fixed template with three holes; the report is modelled
    as what fills them: the list items of the two boxes and the text of the
    summary box. *)
Record report_html := {
  finding_items : list pystr;
  claim_items : list pystr;
  summary_block : pystr
}.

Definition no_findings : pystr :=
  lit "No confirmed facts extracted from sources.".
Definition no_claims : pystr := lit "No unverified claims detected.".
Definition summary_placeholder : pystr :=
  lit "Analysis complete. See findings above for details.".

(** [for x in xs[:5]: ...] followed by [if not xs: ...] *)
Definition items (xs : list pystr) (none : pystr) : list pystr :=
  firstn 5 xs ++ match xs with [] => [none] | _ :: _ => [] end.

Definition render (st : scan_state) : report_html :=
  {| finding_items := items (key_findings st) no_findings;
     claim_items := items (unverified st) no_claims;
     summary_block :=
       if is_empty (strip (summary st)) then summary_placeholder
       else strip (summary st) |}.

(** [return html, confidence]; [topic] is not used by the source. *)
Definition parse_gemini_to_html (gemini_response topic : pystr)
  : report_html * pystr :=
  let st := scan gemini_response in
  (render st, confidence st).

End Scan.

(** Scenario A of the design document. *)
Definition scenario_A : pystr :=
  lit "CONFIDENCE: 85%" ++ [newline; newline]
  ++ lit "KEY FINDINGS:" ++ [newline]
  ++ bullet :: lit " Fact one" ++ [newline]
  ++ bullet :: lit " Fact two" ++ [newline; newline]
  ++ lit "UNVERIFIED:" ++ [newline]
  ++ bullet :: lit " Rumor one" ++ [newline; newline]
  ++ lit "SUMMARY:" ++ [newline]
  ++ lit "All good.".

End Normalizer.

(* ================================================================== *)
(** * Values and exceptions shared by the fetchers and the store *)
(* ================================================================== *)

Module Py.

Local Unset Elimination Schemes.

(** The Python values [json] reads and writes: [None], booleans, numbers,
    strings, lists, and dicts with string keys in insertion order. *)
Inductive json :=
| JNull
| JBool (b : bool)
| JInt (z : Z)
| JFloat (repr : pystr)
| JStr (s : pystr)
| JArr (items : list json)
| JObj (fields : list (pystr * json)).

Local Set Elimination Schemes.

(** [d.get(key)] on a dict: the first binding of [key]. *)
Fixpoint dict_get (fields : list (pystr * json)) (key : pystr) : option json :=
  match fields with
  | [] => None
  | (k, v) :: rest => if pystr_eqb k key then Some v else dict_get rest key
  end.

(** [v[key]] when [v] is a dict that has the key. *)
Definition field (v : json) (key : pystr) : option json :=
  match v with
  | JObj fields => dict_get fields key
  | _ => None
  end.

(** The exceptions the code tells apart: [json.JSONDecodeError], and every
    other subclass of [Exception]; each carries the text [str(e)]. *)
Inductive exn :=
| JSONDecodeError (msg : pystr)
| OtherException (msg : pystr).

Definition str_of (e : exn) : pystr :=
  match e with JSONDecodeError m => m | OtherException m => m end.

(** A call either returns or raises. *)
Inductive outcome (A : Type) :=
| Returned (a : A)
| Raised (e : exn).

Arguments Returned {A} a.
Arguments Raised {A} e.

Definition bind {A B} (m : outcome A) (k : A -> outcome B) : outcome B :=
  match m with
  | Returned a => k a
  | Raised e => Raised e
  end.

(** [try: body  except ...: handler] *)
Definition try_except {A} (body : outcome A) (handler : exn -> outcome A)
  : outcome A :=
  match body with
  | Returned a => Returned a
  | Raised e => handler e
  end.

End Py.

Import Py.

Declare Scope py_scope.
Delimit Scope py_scope with py.
Notation "x <- m ;; k" := (bind m (fun x => k))
  (at level 61, m at next level, right associativity) : py_scope.

(* ================================================================== *)
(** * Social-signal fetcher: [get_x_intel] *)
(* ================================================================== *)

Module XIntel.

(** What [client.chat.completions.create(...)] followed by
    [response.choices[0].message.content] gives: the content, which is a
    string or [None], or the exception that the call or the access raised,
    of whatever class. *)
Inductive completion :=
| Content (text : option pystr)
| ApiError (e : exn).

(** The client, as far as the code looks at it: there is one or there is
    none.  [if not xai_key] holds of an unset and of an empty variable. *)
Definition get_xai_client (xai_key : option pystr) : option unit :=
  match xai_key with
  | Some (_ :: _) => Some tt
  | _ => None
  end.

Definition fence : pystr := lit "```".

(** The text handed to [json.loads]: the content trimmed, a wrapping code
    fence and its [json] tag removed, and trimmed again. *)
Definition unfence (text : pystr) : pystr :=
  let content := strip text in
  let content :=
    if startswith content fence then
      let content := nth 1 (split content fence) [] in
      if startswith content (lit "json") then skipn 4 content else content
    else content in
  strip content.

Definition error_only (msg : pystr) : json :=
  JObj [(lit "error", JStr msg)].

Definition error_raw (msg raw : pystr) : json :=
  JObj [(lit "error", JStr msg); (lit "raw", JStr raw)].

Section Fetch.

(** [json.loads]: it raises [JSONDecodeError] on text that is not JSON and
    can raise other exceptions ([RecursionError] on deep nesting). *)
Variable json_loads : pystr -> outcome json.

(** [except json.JSONDecodeError as e]: the clause guards the whole [try]
    body and reads the local variable [content], which is bound only once
    the reply has been received and trimmed; read before that, it is an
    [UnboundLocalError], which leaves the function. *)
Definition on_decode_error (content : option pystr) (msg : pystr)
  : outcome json :=
  match content with
  | Some raw =>
      Returned (error_raw (lit "Failed to parse Grok response: " ++ msg) raw)
  | None =>
      Raised (OtherException
                (lit "cannot access local variable 'content' where it is not associated with a value"))
  end.

(** [except Exception as e] *)
Definition on_exception (e : exn) : outcome json :=
  Returned (error_only (lit "Error calling Grok API: " ++ str_of e)).

(** The two [except] clauses, tried in their order; [content] is the
    binding of the local variable when the exception is raised. *)
Definition handlers (content : option pystr) (e : exn) : outcome json :=
  match e with
  | JSONDecodeError msg => on_decode_error content msg
  | OtherException _ => on_exception e
  end.

(** [xai_key] is the value of the environment variable [XAI_API_KEY]. *)
Definition get_x_intel (xai_key : option pystr) (reply : completion)
  : outcome json :=
  match get_xai_client xai_key with
  | None => Returned (error_only (lit "XAI_API_KEY not configured"))
  | Some _ =>
      match reply with
      | ApiError e => handlers None e
      | Content None =>
          handlers None
            (OtherException (lit "'NoneType' object has no attribute 'strip'"))
      | Content (Some text) =>
          let content := unfence text in
          try_except (json_loads content) (handlers (Some content))
      end
  end.

End Fetch.

End XIntel.

(* ================================================================== *)
(** * Evidence fetcher: [get_live_news] *)
(* ================================================================== *)

Module LiveNews.

(** The keyword arguments of [client.search]. *)
Record request := {
  query : pystr;
  search_depth : pystr;
  include_domains : list pystr;
  max_results : N;
  time_range : option pystr
}.

(** A response of the provider: a dict that may have a [results] key, whose
    value is a list of dicts. *)
Record response := {
  results : option (list (list (pystr * json)))
}.

(** [response.get("results", [])] *)
Definition get_results (r : response) : list (list (pystr * json)) :=
  match results r with
  | Some hits => hits
  | None => []
  end.

(** [result.get(key)]: [None] when the key is missing. *)
Definition get (result : list (pystr * json)) (key : pystr) : json :=
  match dict_get result key with
  | Some v => v
  | None => JNull
  end.

(** The dict appended to [news_data]. *)
Definition evidence_item (result : list (pystr * json)) : json :=
  JObj [(lit "url", get result (lit "url"));
        (lit "content", get result (lit "content"));
        (lit "title", get result (lit "title"))].

(** What the function does to the outside: the searches it issues and the
    error banner it shows. *)
Inductive event :=
| Search (req : request)
| StError (msg : pystr).

(** A computation that may raise and that records its events. *)
Definition io (A : Type) : Type := list event -> outcome A * list event.

Definition ret {A} (a : A) : io A := fun log => (Returned a, log).

Definition io_bind {A B} (m : io A) (k : A -> io B) : io B :=
  fun log =>
    match m log with
    | (Returned a, log') => k a log'
    | (Raised e, log') => (Raised e, log')
    end.

Definition io_try {A} (body : io A) (handler : exn -> io A) : io A :=
  fun log =>
    match body log with
    | (Returned a, log') => (Returned a, log')
    | (Raised e, log') => handler e log'
    end.

Definition st_error (msg : pystr) : io unit :=
  fun log => (Returned tt, log ++ [StError msg]).

Notation "x <~ m ;; k" := (io_bind m (fun x => k))
  (at level 61, m at next level, right associativity).

Definition recent (topic : pystr) : request :=
  {| query := topic; search_depth := lit "advanced"; include_domains := [];
     max_results := 10; time_range := Some (lit "year") |}.

Definition unscoped (topic : pystr) : request :=
  {| query := topic; search_depth := lit "advanced"; include_domains := [];
     max_results := 10; time_range := None |}.

Section Fetch.

(** The web-search provider: what a request returns, or the error it
    raises. *)
Variable provider : request -> outcome response.

Definition client_search (req : request) : io response :=
  fun log => (provider req, log ++ [Search req]).

(** [tavily_key] is the credential read from the environment; [if not
    tavily_key] holds of an unset and of an empty one, and the result is
    then [None]. *)
Definition get_live_news (tavily_key : option pystr) (topic : pystr)
  : io (option (list json)) :=
  match tavily_key with
  | Some (_ :: _) =>
      io_try
        (response <~ client_search (recent topic) ;;
         let news_data := map evidence_item (get_results response) in
         if (List.length news_data <? 3)%nat then
           response <~ client_search (unscoped topic) ;;
           let news_data := map evidence_item (get_results response) in
           ret (Some news_data)
         else ret (Some news_data))
        (fun e =>
           _ <~ st_error (lit "Error fetching news: " ++ str_of e) ;;
           ret (Some []))
  | _ => ret None
  end.

End Fetch.

End LiveNews.

(* ================================================================== *)
(** * History store: [utils.py] *)
(* ================================================================== *)

Module History.

Section Store.

(** The text of a file, with [json.dump] and [json.load] on it.  [json.load]
    raises on text that does not decode or parse. *)
Variable text : Type.
Variable json_dump : json -> text.
Variable json_load : text -> outcome json.

(** [history.json] when it exists: whether it can be opened for reading, and
    what it holds. *)
Record file := {
  readable : bool;
  contents : text
}.

(** The part of the file system the module touches: the file, if it exists,
    and whether [open(HISTORY_FILE, 'w')] succeeds. *)
Record store := {
  history_file : option file;
  writable : bool
}.

(** [open(HISTORY_FILE, 'r')] and the read *)
Definition open_read (f : file) : outcome text :=
  if readable f then Returned (contents f)
  else Raised (OtherException (lit "[Errno 13] Permission denied: 'history.json'")).

Definition load_history (s : store) : outcome json :=
  match history_file s with
  | None => Returned (JArr [])
  | Some f =>
      try_except
        (t <- open_read f ;; json_load t)%py
        (fun _ => Returned (JArr []))
  end.

(** [history.insert(0, new_entry)]: only a list has the method. *)
Definition insert0 (history new_entry : json) : outcome json :=
  match history with
  | JArr entries => Returned (JArr (new_entry :: entries))
  | _ => Raised (OtherException (lit "object has no attribute 'insert'"))
  end.

(** [open(HISTORY_FILE, 'w')] with [json.dump]: the file is created if it
    is missing and keeps its permissions otherwise. *)
Definition write (s : store) (t : text) : outcome unit * store :=
  if writable s then
    (Returned tt,
     {| history_file :=
          Some {| readable := match history_file s with
                              | Some f => readable f
                              | None => true
                              end;
                  contents := t |};
        writable := true |})
  else
    (Raised (OtherException (lit "[Errno 13] Permission denied: 'history.json'")),
     s).

Definition new_entry (timestamp topic : pystr) (confidence_score : json)
    (report_html : pystr) (x_intel_data : json) : json :=
  JObj [(lit "timestamp", JStr timestamp);
        (lit "topic", JStr topic);
        (lit "confidence_score", confidence_score);
        (lit "report_html", JStr report_html);
        (lit "x_intel_data", x_intel_data)].

(** [timestamp] is [datetime.now()] formatted, read when the call starts. *)
Definition save_search (timestamp topic : pystr) (confidence_score : json)
    (report_html : pystr) (x_intel_data : json) (s : store)
  : outcome unit * store :=
  let entry :=
    new_entry timestamp topic confidence_score report_html x_intel_data in
  match (history <- load_history s ;; insert0 history entry)%py with
  | Raised e => (Raised e, s)
  | Returned history => write s (json_dump history)
  end.

(** The name of the type of a value, as error messages give it. *)
Definition type_name (v : json) : pystr :=
  match v with
  | JNull => lit "NoneType"
  | JBool _ => lit "bool"
  | JInt _ => lit "int"
  | JFloat _ => lit "float"
  | JStr _ => lit "str"
  | JArr _ => lit "list"
  | JObj _ => lit "dict"
  end.

(** [get_search_by_index(index)].  [0 <= index < len(history)] is a chain:
    [len] is taken only when [0 <= index] holds.  A list and a string have
    an element at an index below their length; a dict read from JSON has
    string keys only, so that an integer index is a [KeyError]; the other
    values have no length.  The result [None] is [JNull]. *)
Definition get_search_by_index (s : store) (index : Z) : outcome json :=
  (history <- load_history s ;;
   if (0 <=? index)%Z then
     match history with
     | JArr entries =>
         if (index <? Z.of_nat (List.length entries))%Z
         then Returned (nth (Z.to_nat index) entries JNull)
         else Returned JNull
     | JStr t =>
         if (index <? Z.of_nat (List.length t))%Z
         then Returned (JStr (firstn 1 (skipn (Z.to_nat index) t)))
         else Returned JNull
     | JObj fields =>
         if (index <? Z.of_nat (List.length fields))%Z
         then Raised (OtherException
                        (lit (NilEmpty.string_of_uint
                                (N.to_uint (Z.to_N index)))))
         else Returned JNull
     | _ =>
         Raised (OtherException
                   (lit "object of type '" ++ type_name history
                    ++ lit "' has no len()"))
     end
   else Returned JNull)%py.

(** The arguments of one call of [save_search]. *)
Record call := {
  at_time : pystr;
  topic : pystr;
  confidence_score : json;
  report_html : pystr;
  x_intel_data : json
}.

Definition entry_of (c : call) : json :=
  new_entry (at_time c) (topic c) (confidence_score c) (report_html c)
            (x_intel_data c).

(** Calls of [save_search] one after the other; the first that raises ends
    the run. *)
Fixpoint save_all (calls : list call) (s : store) : outcome unit * store :=
  match calls with
  | [] => (Returned tt, s)
  | c :: rest =>
      match save_search (at_time c) (topic c) (confidence_score c)
                        (report_html c) (x_intel_data c) s with
      | (Returned _, s') => save_all rest s'
      | (Raised e, s') => (Raised e, s')
      end
  end.

End Store.

End History.

(* ================================================================== *)
(** * Verification synthesiser: [verify_news] *)
(* ================================================================== *)

Module Synth.

Section Verify.

(** The generative-text provider: [model.generate_content(prompt)] followed
    by [response.text], for the prompt built from the topic and the news
    data; it gives the text or raises. *)
Variable generate_content : pystr -> list json -> outcome pystr.

(** [gemini_key] is the credential read from the environment; the result
    is always a string: the text of the provider or the text of an
    error. *)
Definition verify_news (gemini_key : option pystr) (topic : pystr)
    (news_data : list json) : pystr :=
  match gemini_key with
  | Some (_ :: _) =>
      match generate_content topic news_data with
      | Returned text => text
      | Raised e => lit "Error connecting to Gemini: " ++ str_of e
      end
  | _ => lit "Error: Gemini API Key missing."
  end.

End Verify.

End Synth.

(* ================================================================== *)
(** * The sources column of [display_result] *)
(* ================================================================== *)

Module Display.

Definition slash : char := 47%N.

(** [title[:40] + '...' if len(title) > 40 else title] on a string *)
Definition title_display (title : pystr) : pystr :=
  if (40 <? List.length title)%nat then firstn 40 title ++ lit "..."
  else title.

(** The same expression on any value: [len] fails on what has no length,
    and the sum with ['...'] fails on a list and a slice fails on a dict. *)
Definition title_display_of (title : json) : outcome json :=
  match title with
  | JStr t => Returned (JStr (title_display t))
  | JArr l =>
      if (40 <? List.length l)%nat
      then Raised (OtherException
                     (lit "can only concatenate list (not 'str') to list"))
      else Returned title
  | JObj fields =>
      if (40 <? List.length fields)%nat
      then Raised (OtherException (lit "slice(None, 40, None)"))
      else Returned title
  | _ =>
      Raised (OtherException
                (lit "object of type '" ++ History.type_name title
                 ++ lit "' has no len()"))
  end.

(** [url.split('/')[2].replace('www.', '')] on a string, with the
    [IndexError] of a missing third piece caught: [domain = 'Source']. *)
Definition domain (url : pystr) : pystr :=
  match nth_error (split url [slash]) 2 with
  | Some host => replace host (lit "www.") []
  | None => lit "Source"
  end.

(** The [try] on any value: only a string has [split]. *)
Definition domain_of (url : json) : pystr :=
  match url with
  | JStr u => domain u
  | _ => lit "Source"
  end.

(** [d.get(key, default)] *)
Definition get_default (d : list (pystr * json)) (key : pystr)
    (default : json) : json :=
  match dict_get d key with
  | Some v => v
  | None => default
  end.

(** What one source shows: a card, with the values that fill its markup,
    or a plain bullet for a source that is not a dict. *)
Inductive shown :=
| Card (title_display url : json) (domain : pystr)
| Plain (source : json).

(** The body of [for i, source in enumerate(sources[:6])]. *)
Definition show_source (source : json) : outcome shown :=
  match source with
  | JObj d =>
      let title := get_default d (lit "title") (JStr (lit "Article")) in
      (title_display <- title_display_of title ;;
       let url := get_default d (lit "url") (JStr (lit "#")) in
       Returned (Card title_display url (domain_of url)))%py
  | _ => Returned (Plain source)
  end.

(** The loop: the sources are shown one after the other, and the first
    that raises ends it. *)
Fixpoint show_each (sources : list json) : outcome (list shown) :=
  match sources with
  | [] => Returned []
  | source :: rest =>
      (card <- show_source source ;;
       cards <- show_each rest ;;
       Returned (card :: cards))%py
  end.

Definition sources_column (sources : list json) : outcome (list shown) :=
  show_each (firstn 6 sources).

End Display.

(* ================================================================== *)
(** * The search handler: what a run does to the history *)
(* ================================================================== *)

Module Handler.

Import Normalizer XIntel LiveNews Synth History.

(** [os.getenv(first) or os.getenv(second)]: the first value unless it is
    unset or empty. *)
Definition getenv_or (env : pystr -> option pystr) (first second : pystr)
  : option pystr :=
  match env first with
  | Some (c :: k) => Some (c :: k)
  | _ => env second
  end.

(** [if not key] *)
Definition missing (key : option pystr) : bool :=
  match key with
  | Some (_ :: _) => false
  | _ => true
  end.

(** The dict [x_intel_demo] of the demo branch. *)
Definition x_intel_demo : json :=
  JObj
    [(lit "x_summary",
      JStr (lit "Dubai Storm is trending with residents sharing dramatic flooding videos. Mixed reactions between concern for safety and amazement at unusual weather."));
     (lit "viral_rumors",
      JArr [JStr (lit "Claims that Burj Khalifa was struck by lightning - UNVERIFIED");
            JStr (lit "Reports of 'cloud seeding' causing the storm - DEBATED")]);
     (lit "sources",
      JArr [JObj [(lit "handle", JStr (lit "@DubaiMediaOffice"));
                  (lit "link", JStr (lit "https://x.com/DubaiMediaOffice"));
                  (lit "text", JStr (lit "Heavy rainfall expected. Residents advised to stay indoors and avoid unnecessary travel."))];
            JObj [(lit "handle", JStr (lit "@weatheruae"));
                  (lit "link", JStr (lit "https://x.com/weatheruae"));
                  (lit "text", JStr (lit "Historic rainfall levels recorded in Dubai. Stay safe everyone!"))];
            JObj [(lit "handle", JStr (lit "@gaborsteingart"));
                  (lit "link", JStr (lit "https://x.com/gaborsteingart"));
                  (lit "text", JStr (lit "Incredible scenes from Dubai airport as floods disrupt flights."))]])].

Section Run.

(** The environment variables. *)
Variable env : pystr -> option pystr.

(** The three providers and [json.loads]. *)
Variable provider : request -> outcome response.
Variable generate_content : pystr -> list json -> outcome pystr.
Variable grok : pystr -> completion.
Variable json_loads : pystr -> outcome json.

(** The Unicode case tables of [str.upper] and [str.lower]. *)
Variable toupper : char -> pystr.
Variable lower : pystr -> pystr.

(** The markup of [parse_gemini_to_html] around what fills it, and the
    markup written out in the demo branch. *)
Variable markup : Normalizer.report_html -> pystr.
Variable demo_report_html : pystr.

(** The history file and the clock. *)
Variable text : Type.
Variable json_dump : json -> text.
Variable json_load : text -> outcome json.
Variable now : pystr.

(** The [else] branch, "real mode": the searches it makes and the store it
    leaves.  What it displays is left out; the display comes after the
    history is written. *)
Definition real_mode (topic : pystr) (s : store text)
  : list event * store text :=
  match get_live_news provider
          (getenv_or env (lit "Tavily API Key") (lit "TAVILY_API_KEY"))
          topic [] with
  | (Returned (Some (item :: items)), log) =>
      let news_results := item :: items in
      let verification_report :=
        verify_news generate_content
          (getenv_or env (lit "Gemini API Key") (lit "GEMINI_API_KEY"))
          topic news_results in
      match get_x_intel json_loads (env (lit "XAI_API_KEY")) (grok topic) with
      | Returned x_intel =>
          if is_empty verification_report then (log, s)
          else
            let (html, confidence) :=
              parse_gemini_to_html toupper verification_report topic in
            (log,
             snd (save_search json_dump json_load now topic
                              (JStr confidence) (markup html) x_intel s))
      | Raised _ => (log, s)
      end
  | (_, log) => (log, s)
  end.

(** [if submit_button:] with its four branches. *)
Definition handle_search (demo_mode : bool) (topic : pystr) (s : store text)
  : list event * store text :=
  let tavily_key := env (lit "TAVILY_API_KEY") in
  let gemini_key := env (lit "GEMINI_API_KEY") in
  if is_empty topic then ([], s)
  else if demo_mode && pystr_eqb (lower (strip topic)) (lit "dubai storm")
  then
    ([], snd (save_search json_dump json_load now (lit "Dubai Storm (Demo)")
                          (JInt 100) demo_report_html x_intel_demo s))
  else if missing tavily_key || missing gemini_key then ([], s)
  else real_mode topic s.

End Run.

End Handler.

(* ================================================================== *)
(** * Vocabulary of the statements *)
(* ================================================================== *)

Module Terms.

Import Normalizer.

(** Characters on which [basic_toupper] is Python's mapping for certain:
    Basic Latin and the bullet glyph. *)
Definition plain (c : char) : bool := ((c <? 128) || (c =? bullet))%N.

(** The header a line names, the three words tried in the order of the
    source. *)
Definition header_of (toupper : char -> pystr) (line : pystr)
  : option section :=
  if contains (upper toupper line) (lit "KEY FINDINGS") then Some Findings
  else if contains (upper toupper line) (lit "UNVERIFIED") then Some Unverified
  else if contains (upper toupper line) (lit "SUMMARY") then Some Summary
  else None.

(** What a bullet does to the state when it is taken as a bullet. *)
Definition file_bullet (st : scan_state) (line : pystr) : scan_state :=
  match current_section st with
  | Some Findings => append_finding st (bullet_text line)
  | Some Unverified => append_unverified st (bullet_text line)
  | _ => st
  end.

(** The trimmed lines of a text that begin with the confidence marker. *)
Definition confidence_lines (text : pystr) : list pystr :=
  filter (fun l => startswith l marker) (map strip (split text [newline])).

(** The decimal numeral of a number. *)
Definition decimal (n : N) : pystr :=
  lit (DecimalString.NilEmpty.string_of_uint (N.to_uint n)).

(** The numerals of 0 to 100. *)
Definition percentages : list pystr :=
  map (fun n => decimal (N.of_nat n)) (seq 0 101).

Definition is_percentage (s : pystr) : bool :=
  existsb (pystr_eqb s) percentages.


Definition begins_with_space (s : pystr) : bool :=
  match s with
  | [] => false
  | c :: _ => isspace c
  end.


(** A findings header, then a bullet whose text has the word SUMMARY. *)
Definition summary_bullet : pystr := bullet :: lit " SUMMARY of events".
Definition findings_then_summary_bullet : pystr :=
  lit "KEY FINDINGS:" ++ newline :: summary_bullet.

Definition findings_then_two_bullets : pystr :=
  lit "KEY FINDINGS:" ++ newline :: bullet :: lit " Fact one"
  ++ newline :: summary_bullet.



Import XIntel LiveNews History.

(** A reply wrapped in a code fence whose body is not JSON. *)
Definition fenced_reply : pystr :=
  lit "```json" ++ newline :: lit "{oops" ++ newline :: lit "```".

(** What [json.loads] does on the body of [fenced_reply]. *)
Definition loads_oops (content : pystr) : outcome json :=
  Raised (JSONDecodeError
            (lit "Expecting property name enclosed in double quotes: line 1 column 2 (char 1)")).

Definition hit (n : Z) : list (pystr * json) :=
  [(lit "url", JInt n); (lit "title", JStr (lit "t"));
   (lit "content", JStr (lit "c")); (lit "score", JInt 1)].

(** [loadAll()[0]]: the first element of the list, [IndexError] on an empty
    one. *)
Definition index0 (history : json) : outcome json :=
  match history with
  | JArr (e :: _) => Returned e
  | _ => Raised (OtherException (lit "list index out of range"))
  end.

(** The topics of the entries of a history, in order. *)
Definition topics (history : json) : list (option json) :=
  match history with
  | JArr entries => map (fun e => field e (lit "topic")) entries
  | _ => []
  end.

(** A store whose file, if there is one, can be read. *)
Definition usable {text} (s : store text) : Prop :=
  match history_file s with
  | Some f => readable f = true
  | None => True
  end.

(** No file yet, in a directory that can be written. *)
Definition fresh {text} : store text :=
  {| history_file := None; writable := true |}.

Definition call_for (t : string) : call :=
  {| at_time := lit "2025-01-01 12:00:00"; topic := lit t;
     confidence_score := JStr (lit "85"); report_html := lit "<div/>";
     x_intel_data := JNull |}.

(** A store that keeps the values themselves: the text of a value is the
    value. *)
Definition kept_dump (v : json) : json := v.
Definition kept_load (t : json) : outcome json := Returned t.

End Terms.

Import Terms.

(* ================================================================== *)
(** * Further vocabulary *)
(* ================================================================== *)

Module MoreTerms.

Import Normalizer XIntel LiveNews History Display.

(** The lines of a text as the loop sees them: trimmed, the empty ones
    left out. *)
Definition seen_lines (text : pystr) : list pystr :=
  filter (fun l => negb (is_empty l)) (map strip (split text [newline])).

(** The texts of the bullet lines of a text. *)
Definition bullet_texts (lines : list pystr) : list pystr :=
  map bullet_text (filter is_bullet (map strip lines)).

Definition backtick : char := 96%N.

(** The searches among the events. *)
Definition searches_of (log : list event) : list request :=
  flat_map (fun e => match e with Search req => [req] | StError _ => [] end)
           log.

(** [if not tavily_key] *)
Definition no_key (key : option pystr) : bool :=
  match key with
  | Some (_ :: _) => false
  | _ => true
  end.

(** An item with the three keys of [news_data], in their order. *)
Definition is_evidence (item : json) : Prop :=
  exists url content title,
    item = JObj [(lit "url", url); (lit "content", content);
                 (lit "title", title)].

(** The three keys of an item of [news_data]. *)
Definition evidence_keys : list pystr :=
  [lit "url"; lit "content"; lit "title"].

(** What a result holds under a key: its value, or [None] when the result
    has no such key. *)
Definition value_or_none (result : list (pystr * json)) (key : pystr)
  : json :=
  match dict_get result key with
  | Some v => v
  | None => JNull
  end.

(** An item carries a result when it is a dict of the three keys and
    holds, under each of them, what the result holds under it. *)
Definition carries (result : list (pystr * json)) (item : json) : Prop :=
  is_evidence item /\
  forall key, In key evidence_keys ->
              field item key = Some (value_or_none result key).

(** A result with a URL and a score, and neither content nor title. *)
Definition bare_hit : list (pystr * json) :=
  [(lit "url", JStr (lit "https://example.com/a")); (lit "score", JInt 2)].

(** A provider with one result of the past year and two in all. *)
Definition patchy_provider (req : request) : outcome response :=
  match time_range req with
  | Some _ => Returned {| results := Some [hit 1] |}
  | None => Returned {| results := Some [hit 3; bare_hit] |}
  end.

(** The items for the two results of [patchy_provider], written out. *)
Definition patchy_items : list json :=
  [JObj [(lit "url", JInt 3); (lit "content", JStr (lit "c"));
         (lit "title", JStr (lit "t"))];
   JObj [(lit "url", JStr (lit "https://example.com/a"));
         (lit "content", JNull); (lit "title", JNull)]].

Definition is_card (s : shown) : bool :=
  match s with Card _ _ _ => true | Plain _ => false end.

(** A dict whose title is a string. *)
Definition titled (source : json) : Prop :=
  exists d t, source = JObj d /\ dict_get d (lit "title") = Some (JStr t).

End MoreTerms.

Import MoreTerms.

(* ================================================================== *)
(** * Facts about the string operations *)
(* ================================================================== *)

Unset Implicit Arguments.

Section StringFacts.

Lemma char_in_In (c : char) (chars : pystr) :
  char_in c chars = true <-> In c chars.
Proof.
  unfold char_in. rewrite existsb_exists. split.
  - intros [x [Hin Heq]]. apply N.eqb_eq in Heq. now subst.
  - intros Hin. exists c. split; [assumption | apply N.eqb_refl].
Qed.

Lemma upper_ext (f g : char -> pystr) (s : pystr) :
  (forall c, In c s -> f c = g c) -> upper f s = upper g s.
Proof.
  unfold upper. induction s as [|c s IH]; intros H; simpl.
  - reflexivity.
  - rewrite (H c (or_introl eq_refl)). f_equal. apply IH.
    intros d Hd. apply H. now right.
Qed.

(** ** Stripping *)

Lemma lstrip_by_incl (p : char -> bool) (s : pystr) (c : char) :
  In c (lstrip_by p s) -> In c s.
Proof.
  induction s as [|a s IH]; simpl; [tauto|].
  destruct (p a); simpl; tauto.
Qed.

Lemma rstrip_by_incl (p : char -> bool) (s : pystr) (c : char) :
  In c (rstrip_by p s) -> In c s.
Proof.
  unfold rstrip_by. intros H. apply in_rev in H.
  apply lstrip_by_incl in H. now apply in_rev.
Qed.

Lemma strip_incl (s : pystr) (c : char) : In c (strip s) -> In c s.
Proof.
  unfold strip. intros H. apply rstrip_by_incl in H.
  now apply lstrip_by_incl in H.
Qed.

(** What is left of a leading run begins with a character outside it. *)
Lemma lstrip_by_head (p : char -> bool) (s : pystr) (c : char) (r : pystr) :
  lstrip_by p s = c :: r -> p c = false.
Proof.
  induction s as [|a s IH]; simpl; [discriminate|].
  destruct (p a) eqn:E; [assumption|].
  intros H. injection H as -> _. assumption.
Qed.

Lemma lstrip_by_snoc (p : char -> bool) (s : pystr) (c : char) :
  p c = false -> lstrip_by p (s ++ [c]) = lstrip_by p s ++ [c].
Proof.
  intros Hc. induction s as [|a s IH]; simpl.
  - now rewrite Hc.
  - destruct (p a); [assumption | reflexivity].
Qed.

Lemma rstrip_by_cons (p : char -> bool) (s : pystr) (c : char) :
  p c = false -> rstrip_by p (c :: s) = c :: rstrip_by p s.
Proof.
  intros Hc. unfold rstrip_by. simpl.
  rewrite lstrip_by_snoc by assumption. now rewrite rev_app_distr.
Qed.

Lemma strip_no_leading_space (s : pystr) : begins_with_space (strip s) = false.
Proof.
  unfold strip. destruct (lstrip_by isspace s) as [|c r] eqn:E.
  - reflexivity.
  - pose proof (lstrip_by_head _ _ _ _ E) as Hc.
    rewrite rstrip_by_cons by assumption. simpl. assumption.
Qed.

(** Trimming leaves alone a string that begins with no whitespace, up to
    its tail. *)
Lemma strip_cons (c : char) (r : pystr) :
  isspace c = false -> strip (c :: r) = c :: rstrip_by isspace r.
Proof.
  intros Hc. unfold strip. simpl. rewrite Hc. now apply rstrip_by_cons.
Qed.

(** ** Replacing one character by nothing *)

Lemma replace_char_filter (c : char) (s : pystr) :
  replace s [c] [] = filter (fun d => negb (d =? c)%N) s.
Proof.
  unfold replace. induction s as [|d s IH]; simpl; [reflexivity|].
  rewrite andb_true_r. destruct (d =? c)%N; simpl; now rewrite IH.
Qed.

Lemma replace_char_absent (c : char) (s : pystr) : ~ In c (replace s [c] []).
Proof.
  rewrite replace_char_filter. intros H. apply filter_In in H.
  destruct H as [_ H]. now rewrite N.eqb_refl in H.
Qed.

(** ** Splitting at line breaks *)




End StringFacts.

(* ================================================================== *)
(** * The scanning loop, line by line *)
(* ================================================================== *)

Module ScanFacts.

Import Normalizer.

Section Lines.

Variable toupper : char -> pystr.

Lemma scan_lines_app (st : scan_state) (before after : list pystr) :
  scan_lines toupper st (before ++ after) =
  scan_lines toupper (scan_lines toupper st before) after.
Proof. unfold scan_lines. apply fold_left_app. Qed.

(** A line that begins with a glyph is not empty and does not begin with
    the confidence marker. *)
Lemma is_bullet_not_marker (line : pystr) :
  is_bullet line = true ->
  is_empty line = false /\ startswith line marker = false.
Proof.
  destruct line as [|c r]; [discriminate|].
  unfold is_bullet. simpl. rewrite !andb_true_r. intros H. split; [reflexivity|].
  destruct (c =? 67)%N eqn:E; [|reflexivity].
  apply N.eqb_eq in E. subst c. discriminate H.
Qed.

Lemma scan_line_bullet (st : scan_state) (raw : pystr) :
  is_bullet (strip raw) = true ->
  scan_line toupper st raw =
  match header_of toupper (strip raw) with
  | Some s => set_section st s
  | None => file_bullet st (strip raw)
  end.
Proof.
  intros Hb. destruct (is_bullet_not_marker _ Hb) as [He Hm].
  unfold scan_line, header_of, file_bullet. rewrite He, Hm, Hb.
  destruct (contains (upper toupper (strip raw)) (lit "KEY FINDINGS"));
    [reflexivity|].
  destruct (contains (upper toupper (strip raw)) (lit "UNVERIFIED"));
    [reflexivity|].
  destruct (contains (upper toupper (strip raw)) (lit "SUMMARY"));
    reflexivity.
Qed.

(** What one iteration does to [confidence]. *)
Lemma scan_line_confidence (st : scan_state) (raw : pystr) :
  confidence (scan_line toupper st raw) =
  if startswith (strip raw) marker then confidence_of (strip raw)
  else confidence st.
Proof.
  unfold scan_line. destruct (strip raw) as [|c r] eqn:E; [reflexivity|].
  cbn [is_empty]. destruct (startswith (c :: r) marker); [reflexivity|].
  repeat match goal with
         | |- context [if ?b then _ else _] => destruct b; try reflexivity
         end;
  destruct (current_section st) as [[| |]|]; reflexivity.
Qed.

Lemma last_cons {A} (l : list A) (x d : A) : last (x :: l) d = last l x.
Proof.
  revert x d. induction l as [|a l IH]; intros x d; [reflexivity|].
  change (last (x :: a :: l) d) with (last (a :: l) d).
  now rewrite !IH.
Qed.

Lemma last_cons_in {A} (l : list A) (x : A) : In (last l x) (x :: l).
Proof.
  revert x. induction l as [|a l IH]; intros x; [now left|].
  rewrite last_cons. right. apply IH.
Qed.

Lemma scan_lines_confidence (ls : list pystr) (st : scan_state) :
  confidence (scan_lines toupper st ls) =
  last (map confidence_of
            (filter (fun l => startswith l marker) (map strip ls)))
       (confidence st).
Proof.
  revert st. induction ls as [|l ls IH]; intros st; [reflexivity|].
  change (scan_lines toupper st (l :: ls))
    with (scan_lines toupper (scan_line toupper st l) ls).
  rewrite IH, scan_line_confidence. cbn [map filter].
  destruct (startswith (strip l) marker); [|reflexivity].
  cbn [map]. now rewrite last_cons.
Qed.

(** Whatever holds of the text of every bullet holds of every string in
    the two lists. *)
Section Bullets.

Variable ok : pystr -> Prop.
Variable Q : pystr -> Prop.
Hypothesis bullet_Q : forall raw, ok raw -> Q (bullet_text (strip raw)).

Lemma scan_line_bullets (st : scan_state) (raw : pystr) :
  ok raw ->
  Forall Q (key_findings st) /\ Forall Q (unverified st) ->
  Forall Q (key_findings (scan_line toupper st raw)) /\
  Forall Q (unverified (scan_line toupper st raw)).
Proof.
  intros Hok [Hk Hu]. unfold scan_line.
  repeat match goal with
         | |- context [if ?b then _ else _] => destruct b; try (split; assumption)
         end;
  destruct (current_section st) as [[| |]|]; try (split; assumption);
  split; cbn [key_findings unverified append_finding append_unverified];
  try assumption; apply Forall_app; split; try assumption;
  constructor; auto.
Qed.

Lemma scan_lines_bullets (ls : list pystr) :
  forall st,
    Forall ok ls ->
    Forall Q (key_findings st) /\ Forall Q (unverified st) ->
    Forall Q (key_findings (scan_lines toupper st ls)) /\
    Forall Q (unverified (scan_lines toupper st ls)).
Proof.
  induction ls as [|l ls IH]; intros st Hls Hst; [exact Hst|].
  inversion Hls as [|? ? Hl Hrest]; subst.
  change (scan_lines toupper st (l :: ls))
    with (scan_lines toupper (scan_line toupper st l) ls).
  apply IH; [assumption|]. now apply scan_line_bullets.
Qed.

End Bullets.

(** Two case tables that agree on the characters of the trimmed lines give
    the same scan. *)
Lemma scan_line_ext (other : char -> pystr) (st : scan_state) (raw : pystr) :
  (forall c, In c (strip raw) -> toupper c = other c) ->
  scan_line toupper st raw = scan_line other st raw.
Proof.
  intros H. unfold scan_line. now rewrite (upper_ext toupper other _ H).
Qed.

Lemma scan_lines_ext (other : char -> pystr) (ls : list pystr) :
  forall st,
    (forall l c, In l ls -> In c (strip l) -> toupper c = other c) ->
    scan_lines toupper st ls = scan_lines other st ls.
Proof.
  induction ls as [|l ls IH]; intros st H; [reflexivity|].
  change (scan_lines toupper st (l :: ls))
    with (scan_lines toupper (scan_line toupper st l) ls).
  change (scan_lines other st (l :: ls))
    with (scan_lines other (scan_line other st l) ls).
  rewrite (scan_line_ext other st l) by (intros c Hc; apply (H l); simpl; auto).
  apply IH. intros l' c Hl Hc. apply (H l'); simpl; auto.
Qed.

End Lines.

End ScanFacts.

(* ================================================================== *)
(** * Properties of the report normaliser *)
(* ================================================================== *)

Module NormalizerProps.

Import Normalizer ScanFacts.

Lemma not_in_check (c : char) (s : pystr) : char_in c s = false -> ~ In c s.
Proof.
  intros H Hin. apply char_in_In in Hin. congruence.
Qed.


Lemma plain_lines_check (text : pystr) :
  forallb (fun l => forallb plain (strip l)) (split text [newline]) = true ->
  forall l c, In l (split text [newline]) -> In c (strip l) -> plain c = true.
Proof.
  intros H l c Hl Hc. rewrite forallb_forall in H. specialize (H l Hl).
  rewrite forallb_forall in H. now apply H.
Qed.

(** On a text of plain characters any case table that is right on them
    scans as [basic_toupper] does. *)
Lemma scan_plain (toupper : char -> pystr) (text : pystr) :
  (forall c, plain c = true -> toupper c = basic_toupper c) ->
  forallb (fun l => forallb plain (strip l)) (split text [newline]) = true ->
  scan toupper text = scan basic_toupper text.
Proof.
  intros Hup Hplain. unfold scan. apply scan_lines_ext.
  intros l c Hl Hc. apply Hup. now apply (plain_lines_check text Hplain l).
Qed.

(** C1. Scenario A: on the text with a confidence line of 85%, two
    findings, one unverified claim and the summary "All good.", the scanning
    pass gives confidence "85", the findings "Fact one" and "Fact two", the
    unverified claim "Rumor one", and a summary that is "All good." once
    trimmed; the report shows the same.  The case table need only be right
    on ASCII and on the bullet glyph. *)
Theorem scenario_A_report (toupper : char -> pystr) (topic : pystr) :
  (forall c, plain c = true -> toupper c = basic_toupper c) ->
  confidence (scan toupper scenario_A) = lit "85" /\
  key_findings (scan toupper scenario_A) = [lit "Fact one"; lit "Fact two"] /\
  unverified (scan toupper scenario_A) = [lit "Rumor one"] /\
  strip (summary (scan toupper scenario_A)) = lit "All good." /\
  parse_gemini_to_html toupper scenario_A topic =
  ({| finding_items := [lit "Fact one"; lit "Fact two"];
      claim_items := [lit "Rumor one"];
      summary_block := lit "All good." |}, lit "85").
Proof.
  intros Hup. unfold parse_gemini_to_html.
  rewrite (scan_plain toupper scenario_A Hup) by (vm_compute; reflexivity).
  vm_compute. repeat split.
Qed.

Lemma scenario_A_report_witness :
  (forall c, plain c = true -> basic_toupper c = basic_toupper c) /\
  confidence (scan basic_toupper scenario_A) = lit "85" /\
  key_findings (scan basic_toupper scenario_A)
  = [lit "Fact one"; lit "Fact two"] /\
  unverified (scan basic_toupper scenario_A) = [lit "Rumor one"] /\
  strip (summary (scan basic_toupper scenario_A)) = lit "All good." /\
  parse_gemini_to_html basic_toupper scenario_A (lit "storm") =
  ({| finding_items := [lit "Fact one"; lit "Fact two"];
      claim_items := [lit "Rumor one"];
      summary_block := lit "All good." |}, lit "85").
Proof.
  split.
  - intros c _. reflexivity.
  - apply (scenario_A_report basic_toupper (lit "storm")).
    intros c _. reflexivity.
Defined.

(** The bullet of [findings_then_summary_bullet] comes under the findings
    header, and yet the scan ends in the summary section with no finding:
    the word SUMMARY in the bullet switched the section. *)
Lemma summary_bullet_switches :
  is_bullet summary_bullet = true /\
  current_section (scan basic_toupper (lit "KEY FINDINGS:")) = Some Findings /\
  current_section (scan basic_toupper findings_then_summary_bullet)
  = Some Summary /\
  key_findings (scan basic_toupper findings_then_summary_bullet) = [].
Proof. vm_compute. repeat split. Qed.

(** C2, as the code has it. A bullet line is tested against the header
    words like any other line, before it is taken as a bullet: when its
    upper-cased form contains KEY FINDINGS, UNVERIFIED or SUMMARY (tried in
    that order) it switches the section and is appended to no list; only a
    bullet line that contains none of them leaves the section as it is and
    is appended to the list of the section in effect (and dropped in the
    summary section or before any header). *)
Theorem bullet_line_header_first (toupper : char -> pystr)
    (gemini_response raw : pystr) (before after : list pystr) :
  split gemini_response [newline] = before ++ raw :: after ->
  is_bullet (strip raw) = true ->
  scan toupper gemini_response =
  scan_lines toupper
    match header_of toupper (strip raw) with
    | Some s => set_section (scan_lines toupper initial before) s
    | None => file_bullet (scan_lines toupper initial before) (strip raw)
    end
    after.
Proof.
  intros Hlines Hb. unfold scan. rewrite Hlines, scan_lines_app.
  change (scan_lines toupper ?st (raw :: after))
    with (scan_lines toupper (scan_line toupper st raw) after).
  now rewrite scan_line_bullet.
Qed.

Lemma bullet_line_header_first_witness :
  split findings_then_two_bullets [newline]
  = [lit "KEY FINDINGS:"] ++ (bullet :: lit " Fact one") :: [summary_bullet] /\
  is_bullet (strip (bullet :: lit " Fact one")) = true /\
  scan basic_toupper findings_then_two_bullets
  = scan_lines basic_toupper
      (append_finding (scan_lines basic_toupper initial [lit "KEY FINDINGS:"])
                      (lit "Fact one"))
      [summary_bullet].
Proof.
  split; [reflexivity|]. split; [reflexivity|].
  apply (bullet_line_header_first basic_toupper findings_then_two_bullets
           (bullet :: lit " Fact one") [lit "KEY FINDINGS:"] [summary_bullet]);
    reflexivity.
Defined.

(** C5. The report always has a summary text, and it is never empty: when
    the scan gathered no summary (nothing but whitespace), the text is the
    fixed placeholder; otherwise it is the gathered summary, trimmed. *)
Theorem summary_block_defaults (toupper : char -> pystr)
    (gemini_response topic : pystr) :
  let html := fst (parse_gemini_to_html toupper gemini_response topic) in
  let gathered := strip (summary (scan toupper gemini_response)) in
  summary_block html <> [] /\
  (gathered = [] -> summary_block html = summary_placeholder) /\
  (gathered <> [] -> summary_block html = gathered).
Proof.
  cbn zeta. unfold parse_gemini_to_html, render. cbn [fst summary_block].
  destruct (strip (summary (scan toupper gemini_response))) as [|c r];
    cbn [is_empty].
  - repeat split; [discriminate | congruence].
  - repeat split; [discriminate | discriminate].
Qed.

(** A confidence line is stored as it is: "150" is out of range and "high"
    is no number, and neither is "N/A". *)
Lemma confidence_not_validated :
  snd (parse_gemini_to_html basic_toupper (lit "CONFIDENCE: 150%") [])
  = lit "150" /\
  is_percentage (lit "150") = false /\ lit "150" <> lit "N/A" /\
  snd (parse_gemini_to_html basic_toupper (lit "CONFIDENCE: high") [])
  = lit "high" /\
  is_percentage (lit "high") = false /\ lit "high" <> lit "N/A".
Proof. vm_compute. repeat split; discriminate. Qed.

(** C6, as the code has it. The confidence is a string, with no check that
    it is a number or in range: it is "N/A" when no trimmed line begins with
    the marker, and otherwise what the last such line gives once the marker
    is removed, the rest trimmed and every percent sign removed.  It never
    contains a percent sign. *)
Theorem confidence_is_last_marker_line (toupper : char -> pystr)
    (gemini_response topic : pystr) :
  snd (parse_gemini_to_html toupper gemini_response topic) =
  last (map confidence_of (confidence_lines gemini_response)) (lit "N/A")
  /\ ~ In percent (snd (parse_gemini_to_html toupper gemini_response topic)).
Proof.
  assert (E : snd (parse_gemini_to_html toupper gemini_response topic) =
              last (map confidence_of (confidence_lines gemini_response))
                   (lit "N/A")).
  { unfold parse_gemini_to_html, scan, confidence_lines. cbn [snd].
    now rewrite scan_lines_confidence. }
  split; [exact E|]. rewrite E.
  destruct (last_cons_in (map confidence_of (confidence_lines gemini_response))
                         (lit "N/A")) as [H | H].
  - rewrite <- H. apply not_in_check. reflexivity.
  - apply in_map_iff in H. destruct H as [l [<- _]].
    apply replace_char_absent.
Qed.



(** In every text the strings of the two lists begin with no whitespace. *)
Lemma bullets_begin_without_space (toupper : char -> pystr)
    (gemini_response : pystr) :
  Forall (fun s => begins_with_space s = false)
         (key_findings (scan toupper gemini_response)
          ++ unverified (scan toupper gemini_response)).
Proof.
  apply Forall_app. unfold scan.
  apply (scan_lines_bullets toupper (fun _ => True)
           (fun s => begins_with_space s = false)).
  - intros raw _. apply strip_no_leading_space.
  - apply Forall_forall. trivial.
  - split; constructor.
Qed.



End NormalizerProps.

(* ================================================================== *)
(** * Properties of the social-signal fetcher *)
(* ================================================================== *)

Module XIntelProps.

Import XIntel.

Lemma field_error_only (msg : pystr) :
  field (error_only msg) (lit "error") = Some (JStr msg) /\
  field (error_only msg) (lit "raw") = None.
Proof. split; reflexivity. Qed.

Lemma field_error_raw (msg raw : pystr) :
  field (error_raw msg raw) (lit "error") = Some (JStr msg) /\
  field (error_raw msg raw) (lit "raw") = Some (JStr raw).
Proof. split; reflexivity. Qed.

(** On [fenced_reply] the [raw] field is the body of the fence, which is
    not the text of the reply. *)
Lemma raw_is_not_the_reply :
  exists msg,
    get_x_intel loads_oops (Some (lit "xai-key")) (Content (Some fenced_reply))
    = Returned (error_raw msg (lit "{oops")) /\
    lit "{oops" <> fenced_reply.
Proof.
  eexists. split; [vm_compute; reflexivity | discriminate].
Qed.

(** C3, as the code has it, the case left apart in which the call of the
    client itself raises a JSON decode error.  The fetcher then does not
    raise.  When [json.loads] rejects the reply with a decode error, the
    result has an [error] field and a [raw] field, and [raw] is the text
    that was given to the parser: the reply trimmed, with its code fence
    and [json] tag removed.  Without a key, and on any other error of the
    client, the result has an [error] field and no [raw] field. *)
Theorem get_x_intel_error_shapes (json_loads : pystr -> outcome json)
    (xai_key : option pystr) (reply : completion) :
  get_xai_client xai_key = None \/
  (forall msg, reply <> ApiError (JSONDecodeError msg)) ->
  exists r,
    get_x_intel json_loads xai_key reply = Returned r /\
    (forall text msg,
        get_xai_client xai_key <> None -> reply = Content (Some text) ->
        json_loads (unfence text) = Raised (JSONDecodeError msg) ->
        exists err,
          field r (lit "error") = Some (JStr err) /\
          field r (lit "raw") = Some (JStr (unfence text))) /\
    (get_xai_client xai_key = None
     \/ (exists msg, reply = ApiError (OtherException msg))
     \/ reply = Content None ->
     exists err,
       field r (lit "error") = Some (JStr err) /\ field r (lit "raw") = None).
Proof.
  intros Hok. unfold get_x_intel.
  destruct (get_xai_client xai_key) as [[]|].
  - destruct reply as [[text|]|[m|m]].
    + cbn zeta. destruct (json_loads (unfence text)) as [v|[m|m]] eqn:E;
        cbn [try_except handlers on_decode_error on_exception];
        eexists; (split; [reflexivity|]); split.
      * intros t m _ Ht Hl. injection Ht as <-. rewrite E in Hl. discriminate.
      * intros [H | [[m H] | H]]; congruence.
      * intros t m' _ Ht Hl. injection Ht as <-. eexists.
        apply field_error_raw.
      * intros [H | [[m' H] | H]]; congruence.
      * intros t m' _ Ht Hl. injection Ht as <-. rewrite E in Hl. discriminate.
      * intros [H | [[m' H] | H]]; congruence.
    + eexists. split; [reflexivity|]. split.
      * intros t m _ Ht. discriminate.
      * intros _. eexists. apply field_error_only.
    + exfalso. destruct Hok as [H | H]; [discriminate H|].
      now apply (H m).
    + eexists. split; [reflexivity|]. split.
      * intros t m' _ Ht. discriminate.
      * intros _. eexists. apply field_error_only.
  - eexists. split; [reflexivity|]. split.
    + intros t m H. now contradiction H.
    + intros _. eexists. apply field_error_only.
Qed.

Lemma get_x_intel_error_shapes_witness :
  (get_xai_client (Some (lit "xai-key")) = None \/
   (forall msg, Content (Some fenced_reply) <> ApiError (JSONDecodeError msg)))
  /\
  exists r,
    get_x_intel loads_oops (Some (lit "xai-key")) (Content (Some fenced_reply))
    = Returned r /\
    (forall text msg,
        get_xai_client (Some (lit "xai-key")) <> None ->
        Content (Some fenced_reply) = Content (Some text) ->
        loads_oops (unfence text) = Raised (JSONDecodeError msg) ->
        exists err,
          field r (lit "error") = Some (JStr err) /\
          field r (lit "raw") = Some (JStr (unfence text))) /\
    (get_xai_client (Some (lit "xai-key")) = None
     \/ (exists msg, Content (Some fenced_reply)
                     = ApiError (OtherException msg))
     \/ Content (Some fenced_reply) = Content None ->
     exists err,
       field r (lit "error") = Some (JStr err) /\ field r (lit "raw") = None).
Proof.
  assert (H : get_xai_client (Some (lit "xai-key")) = None \/
              (forall msg, Content (Some fenced_reply)
                           <> ApiError (JSONDecodeError msg))).
  { right. intros msg. discriminate. }
  split; [exact H|].
  apply (get_x_intel_error_shapes loads_oops (Some (lit "xai-key"))
           (Content (Some fenced_reply)) H).
Defined.

End XIntelProps.

(* ================================================================== *)
(** * Properties of the evidence fetcher *)
(* ================================================================== *)

Module LiveNewsProps.

Import LiveNews.

Lemma evidence_item_carries (result : list (pystr * json)) :
  carries result (evidence_item result).
Proof.
  split.
  - unfold is_evidence, evidence_item. eexists; eexists; eexists. reflexivity.
  - intros key [<- | [<- | [<- | []]]]; reflexivity.
Qed.

Lemma map_evidence_carries (hits : list (list (pystr * json))) :
  Forall2 carries hits (map evidence_item hits).
Proof.
  induction hits as [|h hits IH]; constructor;
    [apply evidence_item_carries | exact IH].
Qed.

(** C4. With a key, when the search of the past year (ten results at most)
    returns, the fetcher looks at the number of its results.  Fewer than
    three: it issues the unscoped search next and returns one item for each
    result of that search, in order, each holding the URL, the content and
    the title of its result, and nothing of the first search (an empty
    list, with an error shown, if that search raises).  Three or more: it
    returns the items of the results of the first search and issues no
    other. *)
Theorem fallback_replaces (provider : request -> outcome response)
    (key topic : pystr) (first : response) (log : list event) :
  key <> [] ->
  provider (recent topic) = Returned first ->
  exists items,
    if (List.length (get_results first) <? 3)%nat then
      match provider (unscoped topic) with
      | Returned second =>
          get_live_news provider (Some key) topic log =
          (Returned (Some items),
           log ++ [Search (recent topic); Search (unscoped topic)]) /\
          Forall2 carries (get_results second) items
      | Raised e =>
          get_live_news provider (Some key) topic log =
          (Returned (Some []),
           log ++ [Search (recent topic); Search (unscoped topic);
                   StError (lit "Error fetching news: " ++ str_of e)])
      end
    else
      get_live_news provider (Some key) topic log =
      (Returned (Some items), log ++ [Search (recent topic)]) /\
      Forall2 carries (get_results first) items.
Proof.
  intros Hkey Hfirst. destruct key as [|k key]; [contradiction|].
  unfold get_live_news, io_try, io_bind, client_search, st_error, ret.
  rewrite Hfirst, length_map.
  destruct (List.length (get_results first) <? 3)%nat.
  - destruct (provider (unscoped topic)) as [second|e].
    + exists (map evidence_item (get_results second)).
      repeat rewrite <- app_assoc. split; [reflexivity|].
      apply map_evidence_carries.
    + exists []. repeat rewrite <- app_assoc. reflexivity.
  - exists (map evidence_item (get_results first)).
    split; [reflexivity | apply map_evidence_carries].
Qed.

Lemma fallback_replaces_witness :
  lit "tvly-key" <> [] /\
  patchy_provider (recent (lit "storm"))
  = Returned {| results := Some [hit 1] |} /\
  (exists items,
      get_live_news patchy_provider (Some (lit "tvly-key")) (lit "storm") [] =
      (Returned (Some items),
       [Search (recent (lit "storm")); Search (unscoped (lit "storm"))]) /\
      Forall2 carries [hit 3; bare_hit] items) /\
  get_live_news patchy_provider (Some (lit "tvly-key")) (lit "storm") [] =
  (Returned (Some patchy_items),
   [Search (recent (lit "storm")); Search (unscoped (lit "storm"))]).
Proof.
  split; [discriminate|]. split; [reflexivity|]. split; [|reflexivity].
  apply (fallback_replaces patchy_provider (lit "tvly-key") (lit "storm")
                           {| results := Some [hit 1] |} []).
  - discriminate.
  - reflexivity.
Defined.

End LiveNewsProps.

(* ================================================================== *)
(** * Properties of the history store *)
(* ================================================================== *)

Module HistoryProps.

Import History.

Section Codec.

Variable text : Type.
Variable json_dump : json -> text.
Variable json_load : text -> outcome json.

(** What is written is read back: [json.load] inverts [json.dump] on the
    values of [json]. *)
Hypothesis load_dump : forall v, json_load (json_dump v) = Returned v.

Local Abbreviation load_history := (load_history json_load).
Local Abbreviation save_search := (save_search json_dump json_load).
Local Abbreviation save_all := (save_all json_dump json_load).

Lemma load_history_cases (s : store text) :
  load_history s =
  Returned match history_file s with
           | None => JArr []
           | Some f =>
               if readable f then
                 match json_load (contents f) with
                 | Returned v => v
                 | Raised _ => JArr []
                 end
               else JArr []
           end.
Proof.
  unfold load_history, open_read. destruct (history_file s) as [f|];
    [|reflexivity].
  destruct (readable f); [|reflexivity].
  cbn [bind try_except]. destruct (json_load (contents f)); reflexivity.
Qed.

(** After a write that succeeds the store reads back what was written. *)
Lemma write_then_load (s s' : store text) (v : json) :
  usable s ->
  write s (json_dump v) = (Returned tt, s') ->
  load_history s' = Returned v /\ usable s' /\ writable s' = true.
Proof.
  unfold usable, write. intros Hu Hw.
  destruct (writable s); [|discriminate]. injection Hw as <-.
  rewrite load_history_cases. cbn [history_file readable contents writable].
  destruct (history_file s) as [f|].
  - rewrite Hu, load_dump. auto.
  - rewrite load_dump. auto.
Qed.

(** A call that returns has found a list and has put the entry in front. *)
Lemma save_search_prepends (s s' : store text) (c : call) :
  usable s ->
  save_search (at_time c) (topic c) (confidence_score c) (report_html c)
              (x_intel_data c) s = (Returned tt, s') ->
  exists old,
    load_history s = Returned (JArr old) /\
    load_history s' = Returned (JArr (entry_of c :: old)) /\
    usable s' /\ writable s' = true.
Proof.
  intros Hu. unfold History.save_search.
  destruct (load_history s) as [h|e]; cbn [bind]; [|discriminate].
  destruct h as [| | | | |old|]; cbn [insert0]; try discriminate.
  intros Hw. exists old. split; [reflexivity|].
  now apply (write_then_load s).
Qed.

(** It does return when the store can be written and holds a list. *)
Lemma save_search_returns (s : store text) (c : call) (old : list json) :
  writable s = true -> load_history s = Returned (JArr old) ->
  exists s',
    save_search (at_time c) (topic c) (confidence_score c) (report_html c)
                (x_intel_data c) s = (Returned tt, s').
Proof.
  intros Hw Hl. unfold History.save_search, write.
  rewrite Hl, Hw. cbn [bind insert0]. eexists. reflexivity.
Qed.

Lemma save_all_prepends_from (calls : list call) :
  forall (s s' : store text) (old : list json),
    usable s -> load_history s = Returned (JArr old) ->
    save_all calls s = (Returned tt, s') ->
    load_history s' = Returned (JArr (rev (map entry_of calls) ++ old)).
Proof.
  induction calls as [|c calls IH]; intros s s' old Hu Hl Hs.
  - injection Hs as <-. exact Hl.
  - cbn [History.save_all] in Hs.
    destruct (save_search (at_time c) (topic c) (confidence_score c)
                          (report_html c) (x_intel_data c) s)
      as [[[]|e] s1] eqn:E; [|discriminate].
    destruct (save_search_prepends s s1 c Hu E) as [old' [Hl' [Hl1 [Hu1 _]]]].
    rewrite Hl in Hl'. injection Hl' as <-.
    rewrite (IH s1 s' (entry_of c :: old) Hu1 Hl1 Hs).
    cbn [map rev]. now rewrite <- app_assoc.
Qed.

(** From a usable store that can be written and holds a list, any run of
    calls returns. *)
Lemma save_all_returns (calls : list call) :
  forall (s : store text) (old : list json),
    usable s -> writable s = true -> load_history s = Returned (JArr old) ->
    exists s', save_all calls s = (Returned tt, s').
Proof.
  induction calls as [|c calls IH]; intros s old Hu Hw Hl.
  - eexists. reflexivity.
  - destruct (save_search_returns s c old Hw Hl) as [s1 E].
    destruct (save_search_prepends s s1 c Hu E) as [old' [_ [Hl1 [Hu1 Hw1]]]].
    cbn [History.save_all]. rewrite E. now apply (IH s1 (entry_of c :: old')).
Qed.

(** Scenario D: on a fresh store the calls for "A", "B" and "C" return, and
    the history then reads "C", "B", "A". *)
Lemma scenario_D :
  exists s',
    save_all [call_for "A"; call_for "B"; call_for "C"] fresh
    = (Returned tt, s') /\
    (forall h, load_history s' = Returned h ->
               topics h = [Some (JStr (lit "C")); Some (JStr (lit "B"));
                           Some (JStr (lit "A"))]).
Proof.
  destruct (save_all_returns [call_for "A"; call_for "B"; call_for "C"]
                             fresh [] I eq_refl eq_refl) as [s' E].
  exists s'. split; [exact E|]. intros h Hh.
  rewrite (save_all_prepends_from _ fresh s' [] I eq_refl E) in Hh.
  injection Hh as <-. reflexivity.
Qed.

(** C7. When a call of [save_search] on a usable store returns, the first
    entry of the history read next is the entry of that call: its [topic]
    and its [confidence_score] are the values that were passed. *)
Theorem append_then_first (s s' : store text) (timestamp topic : pystr)
    (confidence_score : json) (report_html : pystr) (x_intel_data : json) :
  usable s ->
  save_search timestamp topic confidence_score report_html x_intel_data s
  = (Returned tt, s') ->
  exists e,
    (h <- load_history s' ;; index0 h)%py = Returned e /\
    e = new_entry timestamp topic confidence_score report_html x_intel_data /\
    field e (lit "topic") = Some (JStr topic) /\
    field e (lit "confidence_score") = Some confidence_score.
Proof.
  intros Hu Hs.
  destruct (save_search_prepends s s'
              {| at_time := timestamp; topic := topic;
                 confidence_score := confidence_score;
                 report_html := report_html; x_intel_data := x_intel_data |}
              Hu Hs) as [old [_ [Hl _]]].
  rewrite Hl. eexists. split; [reflexivity|]. repeat split.
Qed.

(** C8. Calls of [save_search] that return put their entries in front of
    the history, the last call first, and leave the entries that were there
    as they were, each moved up by one place per call. *)
Theorem appends_prepend (calls : list call) (s s' : store text)
    (old : list json) :
  usable s ->
  load_history s = Returned (JArr old) ->
  save_all calls s = (Returned tt, s') ->
  load_history s' = Returned (JArr (rev (map entry_of calls) ++ old)).
Proof. apply save_all_prepends_from. Qed.

(** C9. [load_history] never raises: it returns the empty list when there
    is no file, when the file cannot be read, and when its text does not
    parse. *)
Theorem load_history_never_raises (s : store text) :
  exists h,
    load_history s = Returned h /\
    (history_file s = None -> h = JArr []) /\
    (forall f, history_file s = Some f ->
               readable f = false \/
               (exists e, json_load (contents f) = Raised e) ->
               h = JArr []).
Proof.
  eexists. split; [apply load_history_cases|]. split.
  - intros ->. reflexivity.
  - intros f -> [H | [e H]]; rewrite H; [reflexivity|].
    destruct (readable f); reflexivity.
Qed.

End Codec.

Lemma append_then_first_witness :
  (forall v, kept_load (kept_dump v) = Returned v) /\
  usable (@fresh json) /\
  exists s',
    save_search kept_dump kept_load (lit "2025-01-01 12:00:00") (lit "storm")
                (JStr (lit "85")) (lit "<div/>") JNull fresh
    = (Returned tt, s') /\
    exists e,
      (h <- load_history kept_load s' ;; index0 h)%py = Returned e /\
      e = new_entry (lit "2025-01-01 12:00:00") (lit "storm")
                    (JStr (lit "85")) (lit "<div/>") JNull /\
      field e (lit "topic") = Some (JStr (lit "storm")) /\
      field e (lit "confidence_score") = Some (JStr (lit "85")).
Proof.
  split; [reflexivity|]. split; [exact I|].
  eexists. split; [reflexivity|].
  apply (append_then_first json kept_dump kept_load (fun v => eq_refl)
                           fresh _ (lit "2025-01-01 12:00:00") (lit "storm")
                           (JStr (lit "85")) (lit "<div/>") JNull I eq_refl).
Defined.

Lemma appends_prepend_witness :
  (forall v, kept_load (kept_dump v) = Returned v) /\
  usable (@fresh json) /\
  load_history kept_load fresh = Returned (JArr []) /\
  exists s',
    save_all kept_dump kept_load
             [call_for "A"; call_for "B"; call_for "C"] fresh
    = (Returned tt, s') /\
    load_history kept_load s' =
    Returned (JArr (rev (map entry_of
                             [call_for "A"; call_for "B"; call_for "C"])
                    ++ [])) /\
    (exists h, load_history kept_load s' = Returned h /\
               topics h = [Some (JStr (lit "C")); Some (JStr (lit "B"));
                           Some (JStr (lit "A"))]).
Proof.
  split; [reflexivity|]. split; [exact I|]. split; [reflexivity|].
  eexists. split; [reflexivity|]. split.
  - apply (appends_prepend json kept_dump kept_load (fun v => eq_refl)
                           [call_for "A"; call_for "B"; call_for "C"]
                           fresh _ [] I eq_refl eq_refl).
  - eexists. split; reflexivity.
Defined.

End HistoryProps.

(* ================================================================== *)
(** * More facts about the string operations *)
(* ================================================================== *)

Module MoreStringFacts.

Lemma lstrip_by_fixed (p : char -> bool) (c : char) (r : pystr) :
  p c = false -> lstrip_by p (c :: r) = c :: r.
Proof. intros H. simpl. now rewrite H. Qed.

Lemma lstrip_by_idem (p : char -> bool) (s : pystr) :
  lstrip_by p (lstrip_by p s) = lstrip_by p s.
Proof.
  destruct (lstrip_by p s) as [|c r] eqn:E; [reflexivity|].
  apply lstrip_by_fixed. now apply (lstrip_by_head p s c r).
Qed.

Lemma rstrip_by_idem (p : char -> bool) (s : pystr) :
  rstrip_by p (rstrip_by p s) = rstrip_by p s.
Proof.
  unfold rstrip_by. now rewrite rev_involutive, lstrip_by_idem.
Qed.

(** Trimming a trimmed string changes nothing. *)
Lemma strip_idem (s : pystr) : strip (strip s) = strip s.
Proof.
  unfold strip. destruct (lstrip_by isspace s) as [|c r] eqn:E.
  - reflexivity.
  - pose proof (lstrip_by_head _ _ _ _ E) as Hc.
    rewrite (rstrip_by_cons isspace r c Hc).
    rewrite (lstrip_by_fixed isspace c _ Hc).
    rewrite <- (rstrip_by_cons isspace r c Hc). apply rstrip_by_idem.
Qed.

(** ** Splitting at one character *)

Lemma split_from_char_none (c : char) (a cur : pystr) :
  ~ In c a -> split_from [c] 0 cur a = [rev cur ++ a].
Proof.
  revert cur. induction a as [|x a IH]; intros cur Hn; simpl.
  - now rewrite app_nil_r.
  - rewrite andb_true_r. destruct (x =? c)%N eqn:E.
    + apply N.eqb_eq in E. subst. exfalso. apply Hn. now left.
    + rewrite IH by (intros H; apply Hn; now right).
      simpl. now rewrite <- app_assoc.
Qed.

Lemma split_from_char_cons (c : char) (a b cur : pystr) :
  ~ In c a ->
  split_from [c] 0 cur (a ++ c :: b) = (rev cur ++ a) :: split_from [c] 0 [] b.
Proof.
  revert cur. induction a as [|x a IH]; intros cur Hn; simpl.
  - now rewrite N.eqb_refl, app_nil_r.
  - rewrite andb_true_r. destruct (x =? c)%N eqn:E.
    + apply N.eqb_eq in E. subst. exfalso. apply Hn. now left.
    + rewrite IH by (intros H; apply Hn; now right).
      simpl. now rewrite <- app_assoc.
Qed.

Lemma split_char_cons (c : char) (a b : pystr) :
  ~ In c a -> split (a ++ c :: b) [c] = a :: split b [c].
Proof. intros H. unfold split. now rewrite split_from_char_cons. Qed.

(** ** Splitting at the code fence *)

Lemma split_from_fence_end (body cur : pystr) :
  ~ In backtick body ->
  split_from XIntel.fence 0 cur (body ++ XIntel.fence) = [rev cur ++ body; []].
Proof.
  revert cur. induction body as [|x body IH]; intros cur Hn.
  - rewrite app_nil_r. reflexivity.
  - change ((x :: body) ++ XIntel.fence) with (x :: (body ++ XIntel.fence)).
    cbn [split_from].
    replace (startswith (x :: body ++ XIntel.fence) XIntel.fence) with false.
    + rewrite IH by (intros H; apply Hn; now right).
      simpl. now rewrite <- app_assoc.
    + symmetry. cbn. destruct (x =? 96)%N eqn:E; [|reflexivity].
      apply N.eqb_eq in E. subst. exfalso. apply Hn. now left.
Qed.

(** The pieces of a fence around a body without backticks. *)
Lemma split_fenced (body : pystr) :
  ~ In backtick body ->
  split (XIntel.fence ++ body ++ XIntel.fence) XIntel.fence = [[]; body; []].
Proof.
  intros Hn. unfold split.
  change (XIntel.fence ++ body ++ XIntel.fence)
    with (96%N :: 96%N :: 96%N :: (body ++ XIntel.fence)).
  set (rest := body ++ XIntel.fence).
  change XIntel.fence with [96%N; 96%N; 96%N]. simpl.
  subst rest. change [96%N; 96%N; 96%N] with XIntel.fence.
  now rewrite split_from_fence_end.
Qed.

End MoreStringFacts.

(* ================================================================== *)
(** * More properties of the report normaliser *)
(* ================================================================== *)

Module NormalizerMore.

Import Normalizer ScanFacts MoreStringFacts.

Section Scan.

Variable toupper : char -> pystr.

(** ** Lines before the first header *)

Lemma scan_line_no_header (st : scan_state) (raw : pystr) :
  header_of toupper (strip raw) = None ->
  current_section st = None ->
  scan_line toupper st raw =
  if startswith (strip raw) marker
  then set_confidence st (confidence_of (strip raw))
  else st.
Proof.
  unfold header_of, scan_line. intros Hh Hs.
  destruct (strip raw) as [|c r]; [reflexivity|]. cbn [is_empty].
  destruct (startswith (c :: r) marker); [reflexivity|].
  destruct (contains (upper toupper (c :: r)) (lit "KEY FINDINGS"));
    [discriminate|].
  destruct (contains (upper toupper (c :: r)) (lit "UNVERIFIED"));
    [discriminate|].
  destruct (contains (upper toupper (c :: r)) (lit "SUMMARY"));
    [discriminate|].
  rewrite Hs. destruct (is_bullet (c :: r)); reflexivity.
Qed.

Lemma scan_lines_no_header (before : list pystr) :
  forall st,
    Forall (fun l => header_of toupper (strip l) = None) before ->
    current_section st = None ->
    scan_lines toupper st before =
    set_confidence st
      (last (map confidence_of
                 (filter (fun l => startswith l marker) (map strip before)))
            (confidence st)).
Proof.
  induction before as [|l ls IH]; intros st Hall Hs.
  - destruct st; reflexivity.
  - inversion Hall as [|? ? Hl Hls]; subst.
    change (scan_lines toupper st (l :: ls))
      with (scan_lines toupper (scan_line toupper st l) ls).
    rewrite (scan_line_no_header st l Hl Hs). cbn [map filter].
    destruct (startswith (strip l) marker).
    + rewrite IH by assumption. cbn [map]. now rewrite last_cons.
    + now apply IH.
Qed.

(** ** The lines the loop sees *)

Lemma scan_line_strip (st : scan_state) (raw : pystr) :
  scan_line toupper st (strip raw) = scan_line toupper st raw.
Proof. unfold scan_line. now rewrite strip_idem. Qed.

Lemma scan_line_blank (st : scan_state) (raw : pystr) :
  is_empty (strip raw) = true -> scan_line toupper st raw = st.
Proof. unfold scan_line. now intros ->. Qed.

Lemma scan_lines_seen (ls : list pystr) :
  forall st,
    scan_lines toupper st ls =
    scan_lines toupper st
      (filter (fun l => negb (is_empty l)) (map strip ls)).
Proof.
  induction ls as [|l ls IH]; intros st; [reflexivity|].
  change (scan_lines toupper st (l :: ls))
    with (scan_lines toupper (scan_line toupper st l) ls).
  cbn [map filter]. destruct (is_empty (strip l)) eqn:E; cbn [negb].
  - rewrite (scan_line_blank st l E). apply IH.
  - change (scan_lines toupper st (strip l :: ?rest))
      with (scan_lines toupper (scan_line toupper st (strip l)) rest).
    rewrite scan_line_strip. apply IH.
Qed.

(** ** Where the stored strings come from *)

Lemma scan_line_lists (st : scan_state) (raw : pystr) :
  (key_findings (scan_line toupper st raw) = key_findings st /\
   unverified (scan_line toupper st raw) = unverified st) \/
  (is_bullet (strip raw) = true /\
   ((key_findings (scan_line toupper st raw)
     = key_findings st ++ [bullet_text (strip raw)] /\
     unverified (scan_line toupper st raw) = unverified st) \/
    (key_findings (scan_line toupper st raw) = key_findings st /\
     unverified (scan_line toupper st raw)
     = unverified st ++ [bullet_text (strip raw)]))).
Proof.
  unfold scan_line.
  destruct (is_empty (strip raw)); [now left|].
  destruct (startswith (strip raw) marker); [now left|].
  destruct (contains (upper toupper (strip raw)) (lit "KEY FINDINGS"));
    [now left|].
  destruct (contains (upper toupper (strip raw)) (lit "UNVERIFIED"));
    [now left|].
  destruct (contains (upper toupper (strip raw)) (lit "SUMMARY"));
    [now left|].
  destruct (is_bullet (strip raw)).
  - destruct (current_section st) as [[| |]|]; try (now left);
      right; (split; [reflexivity|]); [left | right]; now split.
  - destruct (current_section st) as [[| |]|]; now left.
Qed.

Lemma bullet_texts_cons (l : pystr) (ls : list pystr) :
  bullet_texts (l :: ls) =
  if is_bullet (strip l) then bullet_text (strip l) :: bullet_texts ls
  else bullet_texts ls.
Proof.
  unfold bullet_texts. cbn [map filter].
  destruct (is_bullet (strip l)); reflexivity.
Qed.

Lemma scan_lines_lists (ls : list pystr) :
  forall st,
  exists a b,
    key_findings (scan_lines toupper st ls) = key_findings st ++ a /\
    unverified (scan_lines toupper st ls) = unverified st ++ b /\
    Forall (fun s => In s (bullet_texts ls)) (a ++ b) /\
    (List.length a + List.length b <= List.length (bullet_texts ls))%nat.
Proof.
  induction ls as [|l ls IH]; intros st.
  - exists [], []. rewrite !app_nil_r. repeat split; auto.
  - change (scan_lines toupper st (l :: ls))
      with (scan_lines toupper (scan_line toupper st l) ls).
    destruct (IH (scan_line toupper st l)) as [a [b [Ha [Hb [Hin Hlen]]]]].
    rewrite Ha, Hb, bullet_texts_cons.
    assert (Hmono : forall xs,
               Forall (fun s => In s (bullet_texts ls)) xs ->
               Forall (fun s => In s (bullet_text (strip l) :: bullet_texts ls))
                      xs).
    { intros xs H. eapply Forall_impl; [|exact H]. intros s Hs. now right. }
    destruct (scan_line_lists st l)
      as [[Hk Hu] | [Hbul [[Hk Hu] | [Hk Hu]]]]; rewrite Hk, Hu.
    + exists a, b. repeat split; try reflexivity.
      * destruct (is_bullet (strip l)); auto.
      * destruct (is_bullet (strip l)); cbn [List.length]; lia.
    + rewrite Hbul. exists (bullet_text (strip l) :: a), b.
      rewrite <- app_assoc. repeat split; try reflexivity.
      * cbn [app]. constructor; [now left | auto].
      * cbn [List.length]. lia.
    + rewrite Hbul. exists a, (bullet_text (strip l) :: b).
      rewrite <- app_assoc. repeat split; try reflexivity.
      * apply Forall_app. apply Forall_app in Hin. destruct Hin as [H1 H2].
        split; [auto|]. constructor; [now left | auto].
      * cbn [List.length]. lia.
Qed.

End Scan.

Lemma items_shape (xs : list pystr) (none : pystr) :
  (1 <= List.length (items xs none) <= 5)%nat /\
  (xs = [] -> items xs none = [none]) /\
  (xs <> [] -> items xs none = firstn 5 xs).
Proof.
  unfold items. destruct xs as [|x xs].
  - repeat split; cbn; try lia. congruence.
  - rewrite app_nil_r. repeat split; try discriminate.
    + cbn [firstn List.length]. lia.
    + rewrite length_firstn. lia.
Qed.

End NormalizerMore.

Module ReportProps.

Import Normalizer ScanFacts NormalizerMore.

Definition early_bullet_text : pystr :=
  bullet :: lit " early" ++ newline :: lit "CONFIDENCE: 70" ++ newline
  :: lit "KEY FINDINGS:" ++ newline :: bullet :: lit " kept".

Definition indented_text : pystr :=
  lit "  KEY FINDINGS:" ++ newline :: newline :: tab :: lit "- a  ".

Definition flush_text : pystr := lit "KEY FINDINGS:" ++ newline :: lit "- a".

(** X1. The lines of a response that come before its first header line
    store nothing: whatever bullets and other lines are among them, the
    scan reaches the rest of the lines with empty findings, empty unverified
    claims, an empty summary and no section; those lines can only have set
    the confidence. *)
Theorem nothing_stored_before_first_header (toupper : char -> pystr)
    (gemini_response : pystr) (before after : list pystr) :
  split gemini_response [newline] = before ++ after ->
  Forall (fun l => header_of toupper (strip l) = None) before ->
  key_findings (scan_lines toupper initial before) = [] /\
  unverified (scan_lines toupper initial before) = [] /\
  summary (scan_lines toupper initial before) = [] /\
  current_section (scan_lines toupper initial before) = None /\
  scan toupper gemini_response =
  scan_lines toupper (scan_lines toupper initial before) after.
Proof.
  intros Hsplit Hall.
  rewrite (scan_lines_no_header toupper before initial Hall eq_refl).
  repeat split. unfold scan. rewrite Hsplit, scan_lines_app.
  now rewrite (scan_lines_no_header toupper before initial Hall eq_refl).
Qed.

Lemma nothing_stored_before_first_header_witness :
  split early_bullet_text [newline]
  = [bullet :: lit " early"; lit "CONFIDENCE: 70"]
    ++ [lit "KEY FINDINGS:"; bullet :: lit " kept"] /\
  Forall (fun l => header_of basic_toupper (strip l) = None)
         [bullet :: lit " early"; lit "CONFIDENCE: 70"] /\
  key_findings (scan_lines basic_toupper initial
                  [bullet :: lit " early"; lit "CONFIDENCE: 70"]) = [] /\
  unverified (scan_lines basic_toupper initial
                [bullet :: lit " early"; lit "CONFIDENCE: 70"]) = [] /\
  summary (scan_lines basic_toupper initial
             [bullet :: lit " early"; lit "CONFIDENCE: 70"]) = [] /\
  current_section (scan_lines basic_toupper initial
                     [bullet :: lit " early"; lit "CONFIDENCE: 70"]) = None /\
  scan basic_toupper early_bullet_text =
  scan_lines basic_toupper
    (scan_lines basic_toupper initial
       [bullet :: lit " early"; lit "CONFIDENCE: 70"])
    [lit "KEY FINDINGS:"; bullet :: lit " kept"].
Proof.
  split; [reflexivity|].
  split; [repeat constructor|].
  apply (nothing_stored_before_first_header basic_toupper early_bullet_text
           [bullet :: lit " early"; lit "CONFIDENCE: 70"]
           [lit "KEY FINDINGS:"; bullet :: lit " kept"]).
  - reflexivity.
  - repeat constructor.
Defined.

(** X2. Each of the two boxes of the report lists between one and five
    items: the first five stored strings when there are any, and the box's
    own placeholder alone when there are none. *)
Theorem report_lists_bounded (toupper : char -> pystr)
    (gemini_response topic : pystr) :
  let html := fst (parse_gemini_to_html toupper gemini_response topic) in
  let st := scan toupper gemini_response in
  ((1 <= List.length (finding_items html) <= 5)%nat /\
   (key_findings st = [] -> finding_items html = [no_findings]) /\
   (key_findings st <> [] -> finding_items html = firstn 5 (key_findings st)))
  /\
  ((1 <= List.length (claim_items html) <= 5)%nat /\
   (unverified st = [] -> claim_items html = [no_claims]) /\
   (unverified st <> [] -> claim_items html = firstn 5 (unverified st))).
Proof.
  cbn zeta. unfold parse_gemini_to_html, render.
  cbn [fst finding_items claim_items]. split; apply items_shape.
Qed.

(** X3. The report depends on the response only through its trimmed,
    non-empty lines, and not at all on the topic: two responses that differ
    in indentation, trailing whitespace and blank lines give the same
    report and the same confidence. *)
Theorem same_seen_lines_same_report (toupper : char -> pystr)
    (response1 response2 topic1 topic2 : pystr) :
  seen_lines response1 = seen_lines response2 ->
  parse_gemini_to_html toupper response1 topic1 =
  parse_gemini_to_html toupper response2 topic2.
Proof.
  intros H. unfold parse_gemini_to_html, scan.
  rewrite (scan_lines_seen toupper (split response1 [newline])).
  rewrite (scan_lines_seen toupper (split response2 [newline])).
  unfold seen_lines in H. now rewrite H.
Qed.

Lemma same_seen_lines_same_report_witness :
  seen_lines indented_text = seen_lines flush_text /\
  parse_gemini_to_html basic_toupper indented_text (lit "storm") =
  parse_gemini_to_html basic_toupper flush_text (lit "flood").
Proof.
  split; [reflexivity|].
  apply (same_seen_lines_same_report basic_toupper indented_text flush_text
                                     (lit "storm") (lit "flood")).
  reflexivity.
Defined.

(** X4. The scan stores nothing of its own making: every string among the
    findings and the unverified claims is the stripped text of a bullet
    line of the response, and no more strings are stored than the response
    has bullet lines. *)
Theorem stored_bullets_come_from_bullet_lines (toupper : char -> pystr)
    (gemini_response : pystr) :
  let st := scan toupper gemini_response in
  let texts := bullet_texts (split gemini_response [newline]) in
  Forall (fun s => In s texts) (key_findings st ++ unverified st) /\
  (List.length (key_findings st) + List.length (unverified st)
   <= List.length texts)%nat.
Proof.
  cbn zeta. unfold scan.
  destruct (scan_lines_lists toupper (split gemini_response [newline]) initial)
    as [a [b [Ha [Hb [Hin Hlen]]]]].
  rewrite Ha, Hb. cbn [key_findings unverified initial app].
  split; assumption.
Qed.

End ReportProps.

(* ================================================================== *)
(** * More properties of the fetchers *)
(* ================================================================== *)

Module XIntelMore.

Import XIntel MoreStringFacts.

(** A parser that knows the empty object only. *)
Definition loads_empty_object (content : pystr) : outcome json :=
  if pystr_eqb content (lit "{}") then Returned (JObj [])
  else Raised (JSONDecodeError (lit "Expecting value: line 1 column 1 (char 0)")).

Definition fenced_empty_object : pystr :=
  newline :: lit "```json" ++ newline :: lit "{}" ++ newline :: lit "```  ".

Lemma startswith_no_backtick (s : pystr) :
  ~ In backtick s -> startswith s fence = false.
Proof.
  destruct s as [|c r]; [reflexivity|]. intros Hn. cbn.
  destruct (c =? 96)%N eqn:E; [|reflexivity].
  apply N.eqb_eq in E. subst. exfalso. apply Hn. now left.
Qed.

Lemma unfence_plain (body : pystr) :
  ~ In backtick body -> unfence body = strip body.
Proof.
  intros Hn. unfold unfence.
  rewrite startswith_no_backtick by (intros H; apply Hn; now apply strip_incl).
  apply strip_idem.
Qed.

Lemma unfence_fenced (text body : pystr) :
  strip text = fence ++ lit "json" ++ body ++ fence ->
  ~ In backtick body ->
  unfence text = strip body.
Proof.
  intros Ht Hn. unfold unfence. rewrite Ht.
  change (startswith (fence ++ lit "json" ++ body ++ fence) fence) with true.
  cbn iota. rewrite (app_assoc (lit "json") body fence), split_fenced.
  - reflexivity.
  - intros H. apply in_app_or in H. destruct H as [H | H]; [|now apply Hn].
    cbn in H. repeat (destruct H as [H | H]; [discriminate H|]). exact H.
Qed.

(** X5. A reply that is, once trimmed, a [```json] fence around a body
    without backticks is read as the body alone: the text handed to the
    parser is the trimmed body, and the fetcher returns what it returns on
    the bare body, be it the parsed value or an error. *)
Theorem fenced_reply_reads_as_body (json_loads : pystr -> outcome json)
    (xai_key : option pystr) (text body : pystr) :
  strip text = fence ++ lit "json" ++ body ++ fence ->
  ~ In backtick body ->
  unfence text = strip body /\
  get_x_intel json_loads xai_key (Content (Some text)) =
  get_x_intel json_loads xai_key (Content (Some body)).
Proof.
  intros Ht Hn. split; [now apply unfence_fenced|].
  unfold get_x_intel. cbn zeta.
  now rewrite (unfence_fenced text body Ht Hn), (unfence_plain body Hn).
Qed.

Lemma fenced_reply_reads_as_body_witness :
  strip fenced_empty_object
  = fence ++ lit "json" ++ (newline :: lit "{}" ++ [newline]) ++ fence /\
  ~ In backtick (newline :: lit "{}" ++ [newline]) /\
  unfence fenced_empty_object = strip (newline :: lit "{}" ++ [newline]) /\
  get_x_intel loads_empty_object (Some (lit "xai-key"))
              (Content (Some fenced_empty_object)) =
  get_x_intel loads_empty_object (Some (lit "xai-key"))
              (Content (Some (newline :: lit "{}" ++ [newline]))).
Proof.
  split; [reflexivity|].
  split; [apply NormalizerProps.not_in_check; reflexivity|].
  apply (fenced_reply_reads_as_body loads_empty_object (Some (lit "xai-key"))
           fenced_empty_object (newline :: lit "{}" ++ [newline])).
  - reflexivity.
  - apply NormalizerProps.not_in_check. reflexivity.
Defined.

End XIntelMore.

Module LiveNewsMore.

Import LiveNews.

(** X6. The evidence fetcher never raises and issues two searches at
    most.  Without a key it returns [None] and searches nothing.  With a
    key it returns a list, after the search of the past year alone or after
    that search followed by the unscoped one; when the first search raises,
    the list is empty, an error is shown, and no second search is made. *)
Theorem get_live_news_calls (provider : request -> outcome response)
    (key : option pystr) (topic : pystr) (log : list event) :
  exists r extra,
    get_live_news provider key topic log = (Returned r, log ++ extra) /\
    (no_key key = true -> r = None /\ extra = []) /\
    (no_key key = false ->
     (exists items, r = Some items) /\
     (searches_of extra = [recent topic] \/
      searches_of extra = [recent topic; unscoped topic]) /\
     (forall e, provider (recent topic) = Raised e ->
                r = Some [] /\
                extra = [Search (recent topic);
                         StError (lit "Error fetching news: " ++ str_of e)])).
Proof.
  destruct key as [[|k key]|].
  - exists None, []. rewrite app_nil_r.
    repeat split; try reflexivity; discriminate.
  - unfold get_live_news, io_try, io_bind, client_search, st_error, ret.
    destruct (provider (recent topic)) as [first|e1].
    + destruct (List.length (map evidence_item (get_results first)) <? 3)%nat.
      * destruct (provider (unscoped topic)) as [second|e2];
          eexists; eexists; repeat rewrite <- app_assoc;
          (split; [reflexivity|]); (split; [discriminate|]); intros _;
          (split; [eexists; reflexivity|]);
          (split; [right; reflexivity | discriminate]).
      * eexists; eexists. (split; [reflexivity|]). (split; [discriminate|]).
        intros _. (split; [eexists; reflexivity|]).
        split; [left; reflexivity | discriminate].
    + eexists; eexists. repeat rewrite <- app_assoc.
      (split; [reflexivity|]). (split; [discriminate|]). intros _.
      (split; [eexists; reflexivity|]). split; [left; reflexivity|].
      intros e He. injection He as <-. split; reflexivity.
  - exists None, []. rewrite app_nil_r.
    repeat split; try reflexivity; discriminate.
Qed.

Lemma evidence_no_other_key (item : json) (key : pystr) :
  is_evidence item -> ~ In key evidence_keys -> field item key = None.
Proof.
  intros [u [c [t ->]]] Hk. cbn [field dict_get]. unfold pystr_eqb.
  destruct (list_eq_dec N.eq_dec (lit "url") key) as [<- | _];
    [exfalso; apply Hk; cbn; auto|].
  destruct (list_eq_dec N.eq_dec (lit "content") key) as [<- | _];
    [exfalso; apply Hk; cbn; auto|].
  destruct (list_eq_dec N.eq_dec (lit "title") key) as [<- | _];
    [exfalso; apply Hk; cbn; auto|].
  reflexivity.
Qed.

Lemma carries_missing (result : list (pystr * json)) (item : json)
    (key : pystr) :
  carries result item -> In key evidence_keys ->
  dict_get result key = None -> field item key = Some JNull.
Proof.
  intros [_ H] Hk Hnone. rewrite (H key Hk). unfold value_or_none.
  now rewrite Hnone.
Qed.

(** X7. Every item of a list the evidence fetcher returns is a dict with
    exactly the keys [url], [content] and [title], in that order, and has
    no other key.  The list is empty, or its items are those of the
    results of one of the two searches, one for each and in order: under
    each of the three keys an item holds what its result holds there, and
    the value [None] when the result lacks the key. *)
Theorem evidence_items_shape (provider : request -> outcome response)
    (key : option pystr) (topic : pystr) (log log' : list event)
    (items : list json) :
  get_live_news provider key topic log = (Returned (Some items), log') ->
  Forall is_evidence items /\
  (forall item other, In item items -> ~ In other evidence_keys ->
                      field item other = None) /\
  (items = [] \/
   exists req resp,
     (req = recent topic \/ req = unscoped topic) /\
     provider req = Returned resp /\
     Forall2 (fun result item =>
                carries result item /\
                forall k, In k evidence_keys -> dict_get result k = None ->
                          field item k = Some JNull)
             (get_results resp) items).
Proof.
  intros H.
  assert (Hshape : forall hits,
             Forall is_evidence (map evidence_item hits) /\
             Forall2 (fun result item =>
                        carries result item /\
                        forall k, In k evidence_keys ->
                                  dict_get result k = None ->
                                  field item k = Some JNull)
                     hits (map evidence_item hits)).
  { induction hits as [|h hits [IH1 IH2]]; [split; constructor|].
    pose proof (LiveNewsProps.evidence_item_carries h) as Hc.
    split; constructor; try assumption; [exact (proj1 Hc)|].
    split; [exact Hc|]. intros k Hk Hn. now apply (carries_missing h). }
  assert (Hall : Forall is_evidence items /\
                 (items = [] \/
                  exists req resp,
                    (req = recent topic \/ req = unscoped topic) /\
                    provider req = Returned resp /\
                    Forall2 (fun result item =>
                               carries result item /\
                               forall k, In k evidence_keys ->
                                         dict_get result k = None ->
                                         field item k = Some JNull)
                            (get_results resp) items)).
  { destruct key as [[|c key]|]; try discriminate.
    revert H.
    unfold get_live_news, io_try, io_bind, client_search, st_error, ret.
    destruct (provider (recent topic)) as [first|e1] eqn:E1.
    - destruct (List.length (map evidence_item (get_results first)) <? 3)%nat.
      + destruct (provider (unscoped topic)) as [second|e2] eqn:E2;
          intros H; injection H as <- _.
        * split; [apply Hshape|]. right. exists (unscoped topic), second.
          split; [now right|]. split; [exact E2 | apply Hshape].
        * split; [constructor | now left].
      + intros H. injection H as <- _.
        split; [apply Hshape|]. right. exists (recent topic), first.
        split; [now left|]. split; [exact E1 | apply Hshape].
    - intros H. injection H as <- _. split; [constructor | now left]. }
  destruct Hall as [Hev Hfrom]. split; [exact Hev|]. split; [|exact Hfrom].
  intros item other Hin Hother. apply evidence_no_other_key; [|assumption].
  rewrite Forall_forall in Hev. now apply Hev.
Qed.

Lemma evidence_items_shape_witness :
  get_live_news patchy_provider (Some (lit "tvly-key")) (lit "storm") [] =
  (Returned (Some patchy_items),
   [Search (recent (lit "storm")); Search (unscoped (lit "storm"))]) /\
  (Forall is_evidence patchy_items /\
   (forall item other, In item patchy_items -> ~ In other evidence_keys ->
                       field item other = None) /\
   (patchy_items = [] \/
    exists req resp,
      (req = recent (lit "storm") \/ req = unscoped (lit "storm")) /\
      patchy_provider req = Returned resp /\
      Forall2 (fun result item =>
                 carries result item /\
                 forall k, In k evidence_keys -> dict_get result k = None ->
                           field item k = Some JNull)
              (get_results resp) patchy_items)) /\
  dict_get bare_hit (lit "title") = None /\
  field (nth 1 patchy_items JNull) (lit "title") = Some JNull /\
  field (nth 1 patchy_items JNull) (lit "score") = None.
Proof.
  split; [reflexivity|]. split; [|repeat split].
  apply (evidence_items_shape patchy_provider (Some (lit "tvly-key"))
           (lit "storm") [] _ patchy_items eq_refl).
Defined.

End LiveNewsMore.

(* ================================================================== *)
(** * More properties of the history store *)
(* ================================================================== *)

Module HistoryMore.

Import History.

(** A file whose text is a value, or is damaged. *)
Definition frail_dump (v : json) : option json := Some v.
Definition frail_load (t : option json) : outcome json :=
  match t with
  | Some v => Returned v
  | None => Raised (JSONDecodeError (lit "Expecting value: line 1 column 1 (char 0)"))
  end.

Definition damaged : store (option json) :=
  {| history_file := Some {| readable := true; contents := None |};
     writable := true |}.

Section Codec.

Variable text : Type.
Variable json_dump : json -> text.
Variable json_load : text -> outcome json.
Hypothesis load_dump : forall v, json_load (json_dump v) = Returned v.

Local Abbreviation load_history := (load_history json_load).
Local Abbreviation save_search := (save_search json_dump json_load).
Local Abbreviation get_search_by_index := (get_search_by_index json_load).

Lemma load_history_empty (s : store text) :
  history_file s = None \/
  (exists f, history_file s = Some f /\
             (readable f = false \/
              exists e, json_load (contents f) = Raised e)) ->
  load_history s = Returned (JArr []).
Proof.
  rewrite HistoryProps.load_history_cases.
  intros [-> | [f [-> [H | [e H]]]]]; [reflexivity | |].
  - now rewrite H.
  - rewrite H. now destruct (readable f).
Qed.

(** X8. [get_search_by_index] gives [None], and does not raise, for a
    negative index whatever the store holds, for every index when the file
    is missing, unreadable or unparsable, and for an index at or past the
    length of a stored list. *)
Theorem get_search_by_index_absent (s : store text) (index : Z) :
  (index < 0)%Z \/
  history_file s = None \/
  (exists f, history_file s = Some f /\
             (readable f = false \/
              exists e, json_load (contents f) = Raised e)) \/
  (exists entries, load_history s = Returned (JArr entries) /\
                   (Z.of_nat (List.length entries) <= index)%Z) ->
  get_search_by_index s index = Returned JNull.
Proof.
  intros H. unfold History.get_search_by_index.
  assert (Hcases : (index < 0)%Z \/
                   exists entries, load_history s = Returned (JArr entries) /\
                                   (Z.of_nat (List.length entries) <= index)%Z).
  { destruct H as [H | [H | [H | H]]]; [now left | | | now right].
    - destruct (Z.ltb_spec index 0); [now left|]. right. exists [].
      split; [apply load_history_empty; now left | cbn; lia].
    - destruct (Z.ltb_spec index 0); [now left|]. right. exists [].
      split; [apply load_history_empty; now right | cbn; lia]. }
  destruct Hcases as [Hneg | [entries [Hl Hlen]]].
  - rewrite HistoryProps.load_history_cases. cbn [bind].
    destruct (Z.leb_spec 0 index); [lia | reflexivity].
  - rewrite Hl. cbn [bind]. destruct (0 <=? index)%Z; [|reflexivity].
    destruct (Z.ltb_spec index (Z.of_nat (List.length entries)));
      [lia | reflexivity].
Qed.


(** X9. After a call of [save_search] that returns on a usable store,
    index 0 gives the entry of that call, and every index from 1 on gives
    what the index before it gave before the call. *)
Theorem index_after_append (s s' : store text) (timestamp topic : pystr)
    (confidence_score : json) (report_html : pystr) (x_intel_data : json) :
  usable s ->
  save_search timestamp topic confidence_score report_html x_intel_data s
  = (Returned tt, s') ->
  get_search_by_index s' 0
  = Returned (new_entry timestamp topic confidence_score report_html
                        x_intel_data) /\
  (forall i, (0 <= i)%Z ->
             get_search_by_index s' (i + 1) = get_search_by_index s i).
Proof.
  intros Hu Hs.
  destruct (HistoryProps.save_search_prepends text json_dump json_load
              load_dump s s'
              {| at_time := timestamp; topic := topic;
                 confidence_score := confidence_score;
                 report_html := report_html; x_intel_data := x_intel_data |}
              Hu Hs) as [old [Hl [Hl' _]]].
  unfold History.get_search_by_index. rewrite Hl, Hl'. cbn [bind].
  split; [reflexivity|]. intros i Hi.
  destruct (Z.leb_spec 0 (i + 1)); [|lia]. destruct (Z.leb_spec 0 i); [|lia].
  cbn [List.length].
  destruct (Z.ltb_spec (i + 1) (Z.of_nat (S (List.length old))));
    destruct (Z.ltb_spec i (Z.of_nat (List.length old))); try lia;
    [|reflexivity].
  replace (Z.to_nat (i + 1)) with (S (Z.to_nat i)) by lia. reflexivity.
Qed.

(** X11. A file whose text does not parse is replaced: on such a store,
    when the file can be read and written, [save_search] returns, and the
    history is then the new entry alone. *)
Theorem unparsable_store_is_replaced (s : store text) (f : file text) (e : exn)
    (timestamp topic : pystr) (confidence_score : json) (report_html : pystr)
    (x_intel_data : json) :
  history_file s = Some f -> readable f = true ->
  json_load (contents f) = Raised e ->
  writable s = true ->
  exists s',
    save_search timestamp topic confidence_score report_html x_intel_data s
    = (Returned tt, s') /\
    load_history s'
    = Returned (JArr [new_entry timestamp topic confidence_score report_html
                                x_intel_data]).
Proof.
  intros Hf Hr He Hw.
  assert (Hl : load_history s = Returned (JArr [])).
  { apply load_history_empty. right. exists f. split; [assumption|].
    right. now exists e. }
  unfold History.save_search. rewrite Hl. cbn [bind insert0].
  destruct (write s (json_dump
              (JArr [new_entry timestamp topic confidence_score report_html
                               x_intel_data]))) as [r s'] eqn:E.
  assert (Hu : usable s) by (unfold usable; now rewrite Hf).
  unfold write in E. rewrite Hw in E. injection E as <- <-.
  eexists. split; [reflexivity|].
  rewrite HistoryProps.load_history_cases.
  cbn [history_file readable contents]. now rewrite Hf, Hr, load_dump.
Qed.

End Codec.

Lemma get_search_by_index_absent_witness :
  ((-1 < 0)%Z \/
   history_file damaged = None \/
   (exists f, history_file damaged = Some f /\
              (readable f = false \/
               exists e, frail_load (contents f) = Raised e)) \/
   (exists entries, load_history frail_load damaged = Returned (JArr entries) /\
                    (Z.of_nat (List.length entries) <= -1)%Z)) /\
  get_search_by_index frail_load damaged (-1) = Returned JNull.
Proof.
  split; [left; reflexivity|].
  apply (get_search_by_index_absent (option json) frail_load damaged (-1)).
  left. reflexivity.
Defined.

Lemma index_after_append_witness :
  (forall v, kept_load (kept_dump v) = Returned v) /\
  usable (@fresh json) /\
  exists s',
    save_search kept_dump kept_load (lit "2025-01-01 12:00:00") (lit "storm")
                (JStr (lit "85")) (lit "<div/>") JNull fresh
    = (Returned tt, s') /\
    get_search_by_index kept_load s' 0
    = Returned (new_entry (lit "2025-01-01 12:00:00") (lit "storm")
                          (JStr (lit "85")) (lit "<div/>") JNull) /\
    (forall i, (0 <= i)%Z ->
               get_search_by_index kept_load s' (i + 1)
               = get_search_by_index kept_load fresh i).
Proof.
  split; [reflexivity|]. split; [exact I|].
  eexists. split; [reflexivity|].
  apply (index_after_append json kept_dump kept_load (fun v => eq_refl)
           fresh _ (lit "2025-01-01 12:00:00") (lit "storm")
           (JStr (lit "85")) (lit "<div/>") JNull I eq_refl).
Defined.

Lemma unparsable_store_is_replaced_witness :
  (forall v, frail_load (frail_dump v) = Returned v) /\
  history_file damaged = Some {| readable := true; contents := None |} /\
  frail_load None
  = Raised (JSONDecodeError (lit "Expecting value: line 1 column 1 (char 0)")) /\
  writable damaged = true /\
  exists s',
    save_search frail_dump frail_load (lit "2025-01-01 12:00:00") (lit "storm")
                (JStr (lit "85")) (lit "<div/>") JNull damaged
    = (Returned tt, s') /\
    load_history frail_load s'
    = Returned (JArr [new_entry (lit "2025-01-01 12:00:00") (lit "storm")
                                (JStr (lit "85")) (lit "<div/>") JNull]).
Proof.
  split; [reflexivity|]. split; [reflexivity|]. split; [reflexivity|].
  split; [reflexivity|].
  apply (unparsable_store_is_replaced (option json) frail_dump frail_load
           (fun v => eq_refl) damaged
           {| readable := true; contents := None |}
           (JSONDecodeError (lit "Expecting value: line 1 column 1 (char 0)"))
           (lit "2025-01-01 12:00:00") (lit "storm") (JStr (lit "85"))
           (lit "<div/>") JNull eq_refl eq_refl eq_refl eq_refl).
Defined.

End HistoryMore.

(* ================================================================== *)
(** * Properties of the sources column *)
(* ================================================================== *)

Module DisplayProps.

Import Display MoreStringFacts.

Definition gulf_url : pystr := lit "https://www.gulfnews.com/uae/weather".

(** A result of the provider that has no title. *)
Definition untitled_hit : list (pystr * json) :=
  [(lit "url", JStr gulf_url); (lit "content", JStr (lit "Heavy rain."))].

Lemma split_from_length (c : char) (s : pystr) :
  forall cur,
    List.length (split_from [c] 0 cur s) = S (count_occ N.eq_dec s c).
Proof.
  induction s as [|x s IH]; intros cur; [reflexivity|].
  cbn [split_from startswith]. rewrite andb_true_r.
  cbn [count_occ]. destruct (N.eq_dec x c) as [-> | Hne].
  - rewrite N.eqb_refl. cbn [List.length pred]. now rewrite IH.
  - apply N.eqb_neq in Hne. rewrite Hne. apply IH.
Qed.

Lemma split_char_head (c : char) (b : pystr) :
  split (c :: b) [c] = [] :: split b [c].
Proof. apply (split_char_cons c [] b). intros []. Qed.


(** X13. For a URL of the form scheme, two slashes, host, with or without
    a path after a third slash, where neither the scheme part nor the host
    has a slash, the domain shown is the host with every [www.] removed. *)
Theorem domain_of_url (scheme host path : pystr) :
  ~ In slash scheme -> ~ In slash host ->
  domain (scheme ++ lit "//" ++ host) = replace host (lit "www.") [] /\
  domain (scheme ++ lit "//" ++ host ++ slash :: path)
  = replace host (lit "www.") [].
Proof.
  intros Hs Hh. unfold domain.
  change (lit "//") with [slash; slash]. cbn [app].
  rewrite !(split_char_cons slash scheme) by assumption.
  rewrite !split_char_head.
  split.
  - unfold split. rewrite split_from_char_none by assumption. reflexivity.
  - rewrite (split_char_cons slash host) by assumption. reflexivity.
Qed.

Lemma domain_of_url_witness :
  ~ In slash (lit "https:") /\ ~ In slash (lit "www.gulfnews.com") /\
  domain (lit "https:" ++ lit "//" ++ lit "www.gulfnews.com")
  = lit "gulfnews.com" /\
  domain gulf_url = lit "gulfnews.com".
Proof.
  split; [apply NormalizerProps.not_in_check; reflexivity|].
  split; [apply NormalizerProps.not_in_check; reflexivity|].
  apply (domain_of_url (lit "https:") (lit "www.gulfnews.com")
                       (lit "uae/weather"));
    apply NormalizerProps.not_in_check; reflexivity.
Defined.

(** X14. A URL with fewer than two slashes has no third piece: the domain
    shown is the word [Source]; this is so of the default ['#'] and of the
    empty string. *)
Theorem domain_without_host (url : pystr) :
  (count_occ N.eq_dec url slash < 2)%nat ->
  domain url = lit "Source".
Proof.
  intros H. unfold domain, split.
  destruct (nth_error (split_from [slash] 0 [] url) 2) as [host|] eqn:E;
    [|reflexivity].
  assert (Hlen : (2 < List.length (split_from [slash] 0 [] url))%nat).
  { apply nth_error_Some. rewrite E. discriminate. }
  rewrite split_from_length in Hlen. lia.
Qed.

Lemma domain_without_host_witness :
  (count_occ N.eq_dec (lit "example.com/news") slash < 2)%nat /\
  domain (lit "example.com/news") = lit "Source".
Proof.
  split; [cbn; lia|].
  apply (domain_without_host (lit "example.com/news")). cbn. lia.
Defined.

Lemma show_source_titled (source : json) :
  titled source ->
  exists title url dom, show_source source = Returned (Card title url dom).
Proof.
  intros [d [t [-> Ht]]]. unfold show_source, get_default.
  rewrite Ht. cbn [title_display_of bind]. eexists; eexists; eexists.
  reflexivity.
Qed.

Lemma show_each_titled (sources : list json) :
  Forall titled sources ->
  exists cards,
    show_each sources = Returned cards /\
    List.length cards = List.length sources /\
    forallb is_card cards = true.
Proof.
  induction sources as [|s sources IH]; intros H.
  - exists []. repeat split.
  - inversion H as [|? ? Hs Hrest]; subst.
    destruct (show_source_titled s Hs) as [title [url [dom E]]].
    destruct (IH Hrest) as [cards [Ec [Hl Hc]]].
    exists (Card title url dom :: cards). cbn [show_each].
    rewrite E. cbn [bind]. rewrite Ec. cbn [bind].
    repeat split; [cbn; now rewrite Hl | cbn; exact Hc].
Qed.

(** X15. When the first six sources are dicts with a string title, the
    column does not raise and shows one card for each of them: six cards at
    most, however many sources there are; what comes after the sixth
    source is not looked at. *)
Theorem sources_column_six (sources : list json) :
  Forall titled (firstn 6 sources) ->
  exists cards,
    sources_column sources = Returned cards /\
    List.length cards = Nat.min 6 (List.length sources) /\
    forallb is_card cards = true.
Proof.
  intros H. unfold sources_column.
  destruct (show_each_titled (firstn 6 sources) H) as [cards [E [Hl Hc]]].
  exists cards. rewrite length_firstn in Hl. repeat split; assumption.
Qed.

Lemma sources_column_six_witness :
  Forall titled (firstn 6 (repeat (LiveNews.evidence_item (hit 1)) 7)) /\
  exists cards,
    sources_column (repeat (LiveNews.evidence_item (hit 1)) 7)
    = Returned cards /\
    List.length cards
    = Nat.min 6 (List.length (repeat (LiveNews.evidence_item (hit 1)) 7)) /\
    forallb is_card cards = true.
Proof.
  assert (H : Forall titled
                     (firstn 6 (repeat (LiveNews.evidence_item (hit 1)) 7))).
  { repeat constructor; eexists; eexists; split; reflexivity. }
  split; [exact H|].
  apply (sources_column_six (repeat (LiveNews.evidence_item (hit 1)) 7) H).
Defined.

(** X16. The item the evidence fetcher builds from a result that has no
    title, or a null one, has the key [title] with the value [None], so the
    default ['Article'] does not apply: when such an item is among the
    first six sources and the ones before it are shown, the column raises
    on taking [len] of the title. *)
Theorem untitled_evidence_raises (result : list (pystr * json))
    (shown_first rest : list json) (cards : list shown) :
  LiveNews.get result (lit "title") = JNull ->
  (List.length shown_first < 6)%nat ->
  show_each shown_first = Returned cards ->
  sources_column (shown_first ++ LiveNews.evidence_item result :: rest)
  = Raised (OtherException (lit "object of type 'NoneType' has no len()")).
Proof.
  intros Ht Hlen Hfirst. unfold sources_column.
  rewrite firstn_app.
  replace (firstn 6 shown_first) with shown_first
    by (symmetry; apply firstn_all2; lia).
  destruct (6 - List.length shown_first)%nat as [|k] eqn:Ek; [lia|].
  cbn [firstn]. clear Ek Hlen. revert cards Hfirst.
  induction shown_first as [|s l IH]; intros cards Hfirst.
  - cbn [app show_each]. unfold show_source, LiveNews.evidence_item.
    change (get_default _ (lit "title") (JStr (lit "Article")))
      with (LiveNews.get result (lit "title")).
    rewrite Ht. reflexivity.
  - cbn [app show_each] in *.
    destruct (show_source s) as [c|e]; cbn [bind] in *; [|discriminate].
    destruct (show_each l) as [cs|e]; cbn [bind] in *; [|discriminate].
    now rewrite (IH cs eq_refl).
Qed.

Lemma untitled_evidence_raises_witness :
  LiveNews.get untitled_hit (lit "title") = JNull /\
  (List.length [LiveNews.evidence_item (hit 1)] < 6)%nat /\
  (exists cards, show_each [LiveNews.evidence_item (hit 1)] = Returned cards) /\
  sources_column ([LiveNews.evidence_item (hit 1)]
                  ++ LiveNews.evidence_item untitled_hit :: [])
  = Raised (OtherException (lit "object of type 'NoneType' has no len()")).
Proof.
  split; [reflexivity|]. split; [cbn; lia|].
  split; [eexists; reflexivity|].
  eapply (untitled_evidence_raises untitled_hit
            [LiveNews.evidence_item (hit 1)] []).
  - reflexivity.
  - cbn. lia.
  - reflexivity.
Defined.

End DisplayProps.

(* ================================================================== *)
(** * The synthesiser's error texts, read by the normaliser *)
(* ================================================================== *)

Module SynthProps.

Import Normalizer Synth MoreStringFacts.

(** The report of a response that yields nothing. *)
Definition empty_report : report_html :=
  {| finding_items := [no_findings]; claim_items := [no_claims];
     summary_block := summary_placeholder |}.

(** A provider that is down. *)
Definition gemini_down (topic : pystr) (news_data : list json)
  : outcome pystr :=
  Raised (OtherException (lit "503 Service Unavailable")).

(** A text of one line that begins with the letter E. *)
Lemma one_line_error_report (toupper : char -> pystr) (rest topic : pystr) :
  ~ In newline rest ->
  parse_gemini_to_html toupper (69%N :: rest) topic
  = (empty_report, lit "N/A").
Proof.
  intros Hn. unfold parse_gemini_to_html, scan, split.
  rewrite split_from_char_none.
  2:{ intros [H | H]; [discriminate H | now apply Hn]. }
  cbn [rev app scan_lines fold_left]. unfold scan_line.
  rewrite strip_cons by reflexivity. cbn [is_empty].
  change (startswith (69%N :: rstrip_by isspace rest) marker) with false.
  change (is_bullet (69%N :: rstrip_by isspace rest)) with false.
  cbn iota.
  repeat match goal with
         | |- context [if ?b then _ else _] => destruct b
         end; reflexivity.
Qed.

Lemma verify_news_failed_report (toupper : char -> pystr)
    (generate_content : pystr -> list json -> outcome pystr)
    (gemini_key : option pystr) (topic shown_topic : pystr)
    (news_data : list json) :
  no_key gemini_key = true \/
  (exists e, generate_content topic news_data = Raised e /\
             ~ In newline (str_of e)) ->
  parse_gemini_to_html toupper
    (verify_news generate_content gemini_key topic news_data) shown_topic
  = (empty_report, lit "N/A").
Proof.
  intros H. unfold verify_news.
  assert (Hmissing :
            parse_gemini_to_html toupper
              (lit "Error: Gemini API Key missing.") shown_topic
            = (empty_report, lit "N/A")).
  { apply (one_line_error_report toupper
             (lit "rror: Gemini API Key missing.")).
    apply NormalizerProps.not_in_check. reflexivity. }
  destruct gemini_key as [[|k key]|]; try exact Hmissing.
  destruct H as [H | [e [He Hn]]]; [discriminate H|]. rewrite He.
  apply (one_line_error_report toupper
           (lit "rror connecting to Gemini: " ++ str_of e)).
  intros Hin. apply in_app_or in Hin. destruct Hin as [Hin | Hin].
  - revert Hin. apply NormalizerProps.not_in_check. reflexivity.
  - now apply Hn.
Qed.

(** X17. When the synthesiser fails, for want of a key or because the
    provider raises an error whose text has no line break, the text it
    returns is read by the normaliser as a response that yields nothing:
    confidence "N/A", the placeholder in each of the two boxes and the
    placeholder summary, whatever the words of the error. *)
Theorem failed_synthesis_report (toupper : char -> pystr)
    (generate_content : pystr -> list json -> outcome pystr)
    (gemini_key : option pystr) (topic shown_topic : pystr)
    (news_data : list json) :
  no_key gemini_key = true \/
  (exists e, generate_content topic news_data = Raised e /\
             ~ In newline (str_of e)) ->
  parse_gemini_to_html toupper
    (verify_news generate_content gemini_key topic news_data) shown_topic
  = (empty_report, lit "N/A").
Proof. apply verify_news_failed_report. Qed.

Lemma failed_synthesis_report_witness :
  (no_key (Some (lit "AIza-key")) = true \/
   (exists e, gemini_down (lit "storm") [] = Raised e /\
              ~ In newline (str_of e))) /\
  parse_gemini_to_html basic_toupper
    (verify_news gemini_down (Some (lit "AIza-key")) (lit "storm") [])
    (lit "storm")
  = (empty_report, lit "N/A").
Proof.
  assert (H : no_key (Some (lit "AIza-key")) = true \/
              (exists e, gemini_down (lit "storm") [] = Raised e /\
                         ~ In newline (str_of e))).
  { right. eexists. split; [reflexivity|].
    apply NormalizerProps.not_in_check. reflexivity. }
  split; [exact H|].
  apply (failed_synthesis_report basic_toupper gemini_down
           (Some (lit "AIza-key")) (lit "storm") (lit "storm") [] H).
Defined.

End SynthProps.

(* ================================================================== *)
(** * Properties of a run of the search handler *)
(* ================================================================== *)

Module HandlerProps.

Import Normalizer XIntel LiveNews Synth History Handler.

(** An environment with the two keys the handler asks for. *)
Definition two_keys (name : pystr) : option pystr :=
  if pystr_eqb name (lit "TAVILY_API_KEY") then Some (lit "tvly-key")
  else if pystr_eqb name (lit "GEMINI_API_KEY") then Some (lit "AIza-key")
  else None.

Definition three_hits (req : request) : outcome response :=
  Returned {| results := Some [hit 1; hit 2; hit 3] |}.

Definition gemini_scenario_A (topic : pystr) (news_data : list json)
  : outcome pystr :=
  Returned scenario_A.

Definition grok_down (topic : pystr) : completion :=
  ApiError (OtherException (lit "Connection error.")).

Definition same_case (s : pystr) : pystr := s.

(** A provider that finds nothing. *)
Definition no_hits (req : request) : outcome response :=
  Returned {| results := Some [] |}.

(** A search that brings nothing: it raises or has no result. *)
Definition brings_nothing (r : outcome response) : Prop :=
  match r with
  | Returned resp => get_results resp = []
  | Raised _ => True
  end.

Lemma getenv_or_present (env : pystr -> option pystr) (first second : pystr) :
  missing (env second) = false ->
  exists c k, getenv_or env first second = Some (c :: k).
Proof.
  unfold getenv_or. intros H. destruct (env first) as [[|c k]|].
  - destruct (env second) as [[|c k]|]; try discriminate. now exists c, k.
  - now exists c, k.
  - destruct (env second) as [[|c k]|]; try discriminate. now exists c, k.
Qed.

(** The call of the client did not itself raise a JSON decode error, or
    there is no client to call. *)
Definition call_sound (xai_key : option pystr) (reply : completion) : Prop :=
  get_xai_client xai_key = None \/
  (forall msg, reply <> ApiError (JSONDecodeError msg)).

Lemma get_x_intel_returns (json_loads : pystr -> outcome json)
    (xai_key : option pystr) (reply : completion) :
  call_sound xai_key reply ->
  exists r, get_x_intel json_loads xai_key reply = Returned r.
Proof.
  unfold call_sound. intros Hok. unfold get_x_intel.
  destruct (get_xai_client xai_key); [|eexists; reflexivity].
  destruct reply as [[t|]|[m|m]]; try (eexists; reflexivity).
  - cbn zeta. destruct (json_loads (unfence t)) as [v|[m|m]];
      eexists; reflexivity.
  - exfalso. destruct Hok as [H | H]; [discriminate H | now apply (H m)].
Qed.

Lemma get_live_news_enough (provider : request -> outcome response)
    (c : char) (k topic : pystr) (first : response) :
  provider (recent topic) = Returned first ->
  (3 <= List.length (get_results first))%nat ->
  get_live_news provider (Some (c :: k)) topic [] =
  (Returned (Some (map evidence_item (get_results first))),
   [Search (recent topic)]).
Proof.
  intros Hp Hl.
  unfold get_live_news, io_try, io_bind, client_search, ret.
  rewrite Hp, length_map.
  destruct (Nat.ltb_spec (List.length (get_results first)) 3); [lia|].
  reflexivity.
Qed.

Lemma get_live_news_nothing (provider : request -> outcome response)
    (key : option pystr) (topic : pystr) :
  (forall req, brings_nothing (provider req)) ->
  exists log,
    get_live_news provider key topic [] = (Returned None, log) \/
    get_live_news provider key topic [] = (Returned (Some []), log).
Proof.
  intros Hn. destruct key as [[|c k]|]; try (eexists; left; reflexivity).
  unfold get_live_news, io_try, io_bind, client_search, st_error, ret.
  pose proof (Hn (recent topic)) as H1. pose proof (Hn (unscoped topic)) as H2.
  destruct (provider (recent topic)) as [first|e1]; cbn in H1.
  - rewrite H1. cbn [map List.length Nat.ltb Nat.leb].
    destruct (provider (unscoped topic)) as [second|e2]; cbn in H2.
    + rewrite H2. eexists. right. reflexivity.
    + eexists. right. reflexivity.
  - eexists. right. reflexivity.
Qed.

Section Run.

Variable env : pystr -> option pystr.
Variable provider : request -> outcome response.
Variable generate_content : pystr -> list json -> outcome pystr.
Variable grok : pystr -> completion.
Variable json_loads : pystr -> outcome json.
Variable toupper : char -> pystr.
Variable lower : pystr -> pystr.
Variable markup : Normalizer.report_html -> pystr.
Variable demo_report_html : pystr.
Variable text : Type.
Variable json_dump : json -> text.
Variable json_load : text -> outcome json.
Variable now : pystr.

Hypothesis load_dump : forall v, json_load (json_dump v) = Returned v.

Local Abbreviation handle_search :=
  (handle_search env provider generate_content grok json_loads toupper lower
                 markup demo_report_html json_dump json_load now).
Local Abbreviation real_mode :=
  (real_mode env provider generate_content grok json_loads toupper markup
             json_dump json_load now).

(** The report the synthesiser gives in a run. *)
Definition report_for (topic : pystr) (news_data : list json) : pystr :=
  verify_news generate_content
    (getenv_or env (lit "Gemini API Key") (lit "GEMINI_API_KEY"))
    topic news_data.

Lemma real_mode_nothing (topic : pystr) (s : store text) :
  (forall req, brings_nothing (provider req)) ->
  snd (real_mode topic s) = s.
Proof.
  intros Hn. unfold Handler.real_mode.
  destruct (get_live_news_nothing provider
              (getenv_or env (lit "Tavily API Key") (lit "TAVILY_API_KEY"))
              topic Hn) as [log [H | H]]; rewrite H; reflexivity.
Qed.

Lemma real_mode_saves (topic : pystr) (s : store text) (first : response)
    (old : list json) :
  missing (env (lit "TAVILY_API_KEY")) = false ->
  provider (recent topic) = Returned first ->
  (3 <= List.length (get_results first))%nat ->
  report_for topic (map evidence_item (get_results first)) <> [] ->
  call_sound (env (lit "XAI_API_KEY")) (grok topic) ->
  usable s -> writable s = true ->
  load_history json_load s = Returned (JArr old) ->
  exists x_intel,
    get_x_intel json_loads (env (lit "XAI_API_KEY")) (grok topic)
    = Returned x_intel /\
    fst (real_mode topic s) = [Search (recent topic)] /\
    load_history json_load (snd (real_mode topic s)) =
    Returned
      (JArr (new_entry now topic
               (JStr (confidence
                        (scan toupper
                           (report_for topic
                              (map evidence_item (get_results first))))))
               (markup
                  (render
                     (scan toupper
                        (report_for topic
                           (map evidence_item (get_results first))))))
               x_intel
             :: old)).
Proof.
  intros Hkey Hp Hlen Hreport Hx Hu Hw Hl.
  destruct (getenv_or_present env (lit "Tavily API Key")
              (lit "TAVILY_API_KEY") Hkey) as [c [k Ek]].
  destruct (get_x_intel_returns json_loads (env (lit "XAI_API_KEY"))
              (grok topic) Hx) as [x Ex].
  exists x. split; [exact Ex|].
  unfold Handler.real_mode. rewrite Ek.
  rewrite (get_live_news_enough provider c k topic first Hp Hlen).
  assert (Hnews : (3 <= List.length (map evidence_item (get_results first)))%nat)
    by now rewrite length_map.
  set (news := map evidence_item (get_results first)) in *.
  destruct news as [|item items]; [cbn in Hnews; lia|].
  rewrite Ex. fold (report_for topic (item :: items)).
  destruct (report_for topic (item :: items)) as [|r0 report];
    [contradiction|].
  cbn [is_empty]. unfold parse_gemini_to_html. cbn [fst snd].
  split; [reflexivity|].
  set (c0 := {| at_time := now; topic := topic;
                confidence_score :=
                  JStr (confidence (scan toupper (r0 :: report)));
                report_html := markup (render (scan toupper (r0 :: report)));
                x_intel_data := x |}).
  destruct (HistoryProps.save_search_returns text json_dump json_load
              s c0 old Hw Hl) as [s' Es].
  destruct (HistoryProps.save_search_prepends text json_dump json_load
              load_dump s s' c0 Hu Es) as [old' [Hl0 [Hl' _]]].
  rewrite Hl in Hl0. injection Hl0 as <-.
  cbn [at_time History.topic confidence_score report_html x_intel_data c0]
    in Es.
  rewrite Es. exact Hl'.
Qed.

Lemma report_for_returned (topic : pystr) (news : list json) (report : pystr) :
  missing (env (lit "GEMINI_API_KEY")) = false ->
  generate_content topic news = Returned report ->
  report_for topic news = report.
Proof.
  intros Hk Hg. unfold report_for, verify_news.
  destruct (getenv_or_present env (lit "Gemini API Key")
              (lit "GEMINI_API_KEY") Hk) as [c [k ->]].
  now rewrite Hg.
Qed.

Lemma report_for_raised (topic : pystr) (news : list json) (e : exn) :
  missing (env (lit "GEMINI_API_KEY")) = false ->
  generate_content topic news = Raised e ->
  report_for topic news = lit "Error connecting to Gemini: " ++ str_of e.
Proof.
  intros Hk Hg. unfold report_for, verify_news.
  destruct (getenv_or_present env (lit "Gemini API Key")
              (lit "GEMINI_API_KEY") Hk) as [c [k ->]].
  now rewrite Hg.
Qed.

Lemma handle_search_real (demo_mode : bool) (topic : pystr) (s : store text) :
  is_empty topic = false ->
  demo_mode && pystr_eqb (lower (strip topic)) (lit "dubai storm") = false ->
  missing (env (lit "TAVILY_API_KEY")) = false ->
  missing (env (lit "GEMINI_API_KEY")) = false ->
  handle_search demo_mode topic s = real_mode topic s.
Proof.
  intros Ht Hd Hk1 Hk2. unfold Handler.handle_search.
  now rewrite Ht, Hd, Hk1, Hk2.
Qed.

(** X18. Outside the demo, a run leaves the history as it was when the
    topic is empty, when one of the two keys is missing, and when every
    search the provider answers brings nothing (it raises or has no
    result): nothing is saved without evidence, whatever the synthesiser
    and the social-signal provider would have answered. *)
Theorem no_evidence_no_entry (demo_mode : bool) (topic : pystr)
    (s : store text) :
  demo_mode && pystr_eqb (lower (strip topic)) (lit "dubai storm") = false ->
  is_empty topic = true \/
  missing (env (lit "TAVILY_API_KEY")) || missing (env (lit "GEMINI_API_KEY"))
  = true \/
  (forall req, brings_nothing (provider req)) ->
  snd (handle_search demo_mode topic s) = s.
Proof.
  intros Hd H. unfold Handler.handle_search. rewrite Hd.
  destruct (is_empty topic); [reflexivity|].
  destruct (missing (env (lit "TAVILY_API_KEY"))
            || missing (env (lit "GEMINI_API_KEY"))); [reflexivity|].
  destruct H as [H | [H | H]]; try discriminate.
  now apply real_mode_nothing.
Qed.

(** X19. A run outside the demo, with a topic and both keys, in which the
    search of the past year returns three results or more and the
    synthesiser returns a text that is not empty, on a usable store that
    can be written and holds a list, the call of the social-signal client
    not raising a JSON decode error itself: it makes that one search, and the
    history then begins with an entry for the topic whose confidence is the
    one the normaliser reads in that text, whose markup is that of the
    normaliser's report, and whose social signal is what [get_x_intel]
    returned; the entries that were there follow. *)
Theorem run_saves_entry (demo_mode : bool) (topic report : pystr)
    (s : store text) (first : response) (old : list json) :
  is_empty topic = false ->
  demo_mode && pystr_eqb (lower (strip topic)) (lit "dubai storm") = false ->
  missing (env (lit "TAVILY_API_KEY")) = false ->
  missing (env (lit "GEMINI_API_KEY")) = false ->
  provider (recent topic) = Returned first ->
  (3 <= List.length (get_results first))%nat ->
  generate_content topic (map evidence_item (get_results first))
  = Returned report ->
  report <> [] ->
  call_sound (env (lit "XAI_API_KEY")) (grok topic) ->
  usable s -> writable s = true ->
  load_history json_load s = Returned (JArr old) ->
  exists x_intel,
    get_x_intel json_loads (env (lit "XAI_API_KEY")) (grok topic)
    = Returned x_intel /\
    fst (handle_search demo_mode topic s) = [Search (recent topic)] /\
    load_history json_load (snd (handle_search demo_mode topic s)) =
    Returned
      (JArr (new_entry now topic
               (JStr (snd (parse_gemini_to_html toupper report topic)))
               (markup (fst (parse_gemini_to_html toupper report topic)))
               x_intel
             :: old)).
Proof.
  intros Ht Hd Hk1 Hk2 Hp Hlen Hg Hr Hx Hu Hw Hl.
  rewrite (handle_search_real demo_mode topic s Ht Hd Hk1 Hk2).
  pose proof (report_for_returned topic _ report Hk2 Hg) as Er.
  destruct (real_mode_saves topic s first old Hk1 Hp Hlen) as [x H];
    try assumption.
  - now rewrite Er.
  - rewrite Er in H. now exists x.
Qed.

(** X20. In such a run, when the synthesiser's provider raises an error
    whose text has no line break, an entry is saved all the same: its
    confidence is "N/A" and its markup is that of the report that yields
    nothing. *)
Theorem failed_synthesis_is_saved (demo_mode : bool) (topic : pystr)
    (e : exn) (s : store text) (first : response) (old : list json) :
  is_empty topic = false ->
  demo_mode && pystr_eqb (lower (strip topic)) (lit "dubai storm") = false ->
  missing (env (lit "TAVILY_API_KEY")) = false ->
  missing (env (lit "GEMINI_API_KEY")) = false ->
  provider (recent topic) = Returned first ->
  (3 <= List.length (get_results first))%nat ->
  generate_content topic (map evidence_item (get_results first)) = Raised e ->
  ~ In newline (str_of e) ->
  call_sound (env (lit "XAI_API_KEY")) (grok topic) ->
  usable s -> writable s = true ->
  load_history json_load s = Returned (JArr old) ->
  exists x_intel,
    get_x_intel json_loads (env (lit "XAI_API_KEY")) (grok topic)
    = Returned x_intel /\
    load_history json_load (snd (handle_search demo_mode topic s)) =
    Returned
      (JArr (new_entry now topic (JStr (lit "N/A"))
                       (markup SynthProps.empty_report) x_intel
             :: old)).
Proof.
  intros Ht Hd Hk1 Hk2 Hp Hlen Hg Hn Hsound Hu Hw Hl.
  rewrite (handle_search_real demo_mode topic s Ht Hd Hk1 Hk2).
  pose proof (report_for_raised topic _ e Hk2 Hg) as Er.
  assert (Hparse :
            parse_gemini_to_html toupper
              (report_for topic (map evidence_item (get_results first))) topic
            = (SynthProps.empty_report, lit "N/A")).
  { unfold report_for.
    apply (SynthProps.verify_news_failed_report toupper generate_content).
    right. now exists e. }
  destruct (real_mode_saves topic s first old Hk1 Hp Hlen) as [x [Hx [_ H]]];
    try assumption.
  - rewrite Er. discriminate.
  - exists x. split; [exact Hx|]. rewrite H.
    unfold parse_gemini_to_html in Hparse.
    pose proof (f_equal fst Hparse) as Hr. pose proof (f_equal snd Hparse) as Hc.
    cbn [fst snd] in Hr, Hc. now rewrite Hr, Hc.
Qed.

(** X21. With a key for the social-signal provider, when the call of its
    client itself raises a JSON decode error, [get_x_intel] raises: the
    clause for that error reads [content] before anything is bound to it.
    In a run with enough evidence the exception ends the run after the
    search and before the history is written: nothing is saved. *)
Theorem client_decode_error_ends_run (demo_mode : bool) (topic msg : pystr)
    (s : store text) (first : response) :
  is_empty topic = false ->
  demo_mode && pystr_eqb (lower (strip topic)) (lit "dubai storm") = false ->
  missing (env (lit "TAVILY_API_KEY")) = false ->
  missing (env (lit "GEMINI_API_KEY")) = false ->
  provider (recent topic) = Returned first ->
  (3 <= List.length (get_results first))%nat ->
  get_xai_client (env (lit "XAI_API_KEY")) <> None ->
  grok topic = ApiError (JSONDecodeError msg) ->
  (exists e, get_x_intel json_loads (env (lit "XAI_API_KEY")) (grok topic)
             = Raised e) /\
  handle_search demo_mode topic s = ([Search (recent topic)], s).
Proof.
  intros Ht Hd Hk1 Hk2 Hp Hlen Hkey Hgrok.
  assert (Hx : exists e,
             get_x_intel json_loads (env (lit "XAI_API_KEY")) (grok topic)
             = Raised e).
  { unfold get_x_intel. rewrite Hgrok.
    destruct (get_xai_client (env (lit "XAI_API_KEY"))); [|contradiction].
    eexists. reflexivity. }
  split; [exact Hx|]. destruct Hx as [e Hx].
  rewrite (handle_search_real demo_mode topic s Ht Hd Hk1 Hk2).
  destruct (getenv_or_present env (lit "Tavily API Key")
              (lit "TAVILY_API_KEY") Hk1) as [c [k Ek]].
  unfold Handler.real_mode. rewrite Ek.
  rewrite (get_live_news_enough provider c k topic first Hp Hlen).
  assert (Hnews : (3 <= List.length (map evidence_item (get_results first)))%nat)
    by now rewrite length_map.
  destruct (map evidence_item (get_results first)) as [|item items];
    [cbn in Hnews; lia|].
  now rewrite Hx.
Qed.

End Run.

Lemma no_evidence_no_entry_witness :
  (true && pystr_eqb (same_case (strip (lit "storm"))) (lit "dubai storm")
   = false) /\
  (is_empty (lit "storm") = true \/
   missing (two_keys (lit "TAVILY_API_KEY"))
   || missing (two_keys (lit "GEMINI_API_KEY")) = true \/
   (forall req, brings_nothing (no_hits req))) /\
  snd (handle_search two_keys no_hits gemini_scenario_A grok_down loads_oops
         basic_toupper same_case summary_block [] kept_dump kept_load
         (lit "2025-01-01 12:00:00") true (lit "storm") fresh)
  = fresh.
Proof.
  assert (H : is_empty (lit "storm") = true \/
              missing (two_keys (lit "TAVILY_API_KEY"))
              || missing (two_keys (lit "GEMINI_API_KEY")) = true \/
              (forall req, brings_nothing (no_hits req))).
  { right. right. intros req. reflexivity. }
  split; [reflexivity|]. split; [exact H|].
  apply (no_evidence_no_entry two_keys no_hits gemini_scenario_A grok_down
           loads_oops basic_toupper same_case summary_block [] json
           kept_dump kept_load (lit "2025-01-01 12:00:00") true (lit "storm")
           fresh eq_refl H).
Defined.

Lemma run_saves_entry_witness :
  (forall v, kept_load (kept_dump v) = Returned v) /\
  is_empty (lit "storm") = false /\
  (true && pystr_eqb (same_case (strip (lit "storm"))) (lit "dubai storm")
   = false) /\
  missing (two_keys (lit "TAVILY_API_KEY")) = false /\
  missing (two_keys (lit "GEMINI_API_KEY")) = false /\
  three_hits (recent (lit "storm"))
  = Returned {| results := Some [hit 1; hit 2; hit 3] |} /\
  scenario_A <> [] /\
  call_sound (two_keys (lit "XAI_API_KEY")) (grok_down (lit "storm")) /\
  exists x_intel,
    get_x_intel loads_oops (two_keys (lit "XAI_API_KEY"))
                (grok_down (lit "storm")) = Returned x_intel /\
    fst (handle_search two_keys three_hits gemini_scenario_A grok_down
           loads_oops basic_toupper same_case summary_block [] kept_dump
           kept_load (lit "2025-01-01 12:00:00") true (lit "storm") fresh)
    = [Search (recent (lit "storm"))] /\
    load_history kept_load
      (snd (handle_search two_keys three_hits gemini_scenario_A grok_down
              loads_oops basic_toupper same_case summary_block [] kept_dump
              kept_load (lit "2025-01-01 12:00:00") true (lit "storm") fresh))
    = Returned
        (JArr [new_entry (lit "2025-01-01 12:00:00") (lit "storm")
                 (JStr (snd (parse_gemini_to_html basic_toupper scenario_A
                                                  (lit "storm"))))
                 (summary_block
                    (fst (parse_gemini_to_html basic_toupper scenario_A
                                               (lit "storm"))))
                 x_intel]).
Proof.
  split; [reflexivity|]. split; [reflexivity|]. split; [reflexivity|].
  split; [reflexivity|]. split; [reflexivity|]. split; [reflexivity|].
  split; [discriminate|]. split; [left; reflexivity|].
  apply (run_saves_entry two_keys three_hits gemini_scenario_A grok_down
           loads_oops basic_toupper same_case summary_block [] json
           kept_dump kept_load (lit "2025-01-01 12:00:00")
           (fun v => eq_refl) true (lit "storm") scenario_A fresh
           {| results := Some [hit 1; hit 2; hit 3] |} []);
    try reflexivity; try discriminate; try exact I;
    try (left; reflexivity); cbn; lia.
Defined.

Lemma failed_synthesis_is_saved_witness :
  (forall v, kept_load (kept_dump v) = Returned v) /\
  is_empty (lit "storm") = false /\
  missing (two_keys (lit "TAVILY_API_KEY")) = false /\
  missing (two_keys (lit "GEMINI_API_KEY")) = false /\
  ~ In newline (lit "503 Service Unavailable") /\
  call_sound (two_keys (lit "XAI_API_KEY")) (grok_down (lit "storm")) /\
  exists x_intel,
    get_x_intel loads_oops (two_keys (lit "XAI_API_KEY"))
                (grok_down (lit "storm")) = Returned x_intel /\
    load_history kept_load
      (snd (handle_search two_keys three_hits SynthProps.gemini_down grok_down
              loads_oops basic_toupper same_case summary_block [] kept_dump
              kept_load (lit "2025-01-01 12:00:00") false (lit "storm") fresh))
    = Returned
        (JArr [new_entry (lit "2025-01-01 12:00:00") (lit "storm")
                 (JStr (lit "N/A"))
                 (summary_block SynthProps.empty_report) x_intel]).
Proof.
  split; [reflexivity|]. split; [reflexivity|]. split; [reflexivity|].
  split; [reflexivity|].
  split; [apply NormalizerProps.not_in_check; reflexivity|].
  split; [left; reflexivity|].
  apply (failed_synthesis_is_saved two_keys three_hits SynthProps.gemini_down
           grok_down loads_oops basic_toupper same_case summary_block []
           json kept_dump kept_load (lit "2025-01-01 12:00:00")
           (fun v => eq_refl) false (lit "storm")
           (OtherException (lit "503 Service Unavailable")) fresh
           {| results := Some [hit 1; hit 2; hit 3] |} []);
    try reflexivity; try discriminate; try exact I;
    try (apply NormalizerProps.not_in_check; reflexivity);
    try (left; reflexivity); cbn; lia.
Defined.

(** An environment with the three keys. *)
Definition three_keys (name : pystr) : option pystr :=
  if pystr_eqb name (lit "XAI_API_KEY") then Some (lit "xai-key")
  else two_keys name.

(** A client whose call raises a JSON decode error. *)
Definition grok_garbled (topic : pystr) : completion :=
  ApiError (JSONDecodeError (lit "Expecting value: line 1 column 1 (char 0)")).

Lemma client_decode_error_ends_run_witness :
  is_empty (lit "storm") = false /\
  missing (three_keys (lit "TAVILY_API_KEY")) = false /\
  missing (three_keys (lit "GEMINI_API_KEY")) = false /\
  three_hits (recent (lit "storm"))
  = Returned {| results := Some [hit 1; hit 2; hit 3] |} /\
  get_xai_client (three_keys (lit "XAI_API_KEY")) <> None /\
  (exists e, get_x_intel loads_oops (three_keys (lit "XAI_API_KEY"))
                         (grok_garbled (lit "storm")) = Raised e) /\
  handle_search three_keys three_hits gemini_scenario_A grok_garbled
    loads_oops basic_toupper same_case summary_block [] kept_dump kept_load
    (lit "2025-01-01 12:00:00") false (lit "storm") fresh
  = ([Search (recent (lit "storm"))], fresh).
Proof.
  split; [reflexivity|]. split; [reflexivity|]. split; [reflexivity|].
  split; [reflexivity|]. split; [discriminate|].
  apply (client_decode_error_ends_run three_keys three_hits
           gemini_scenario_A grok_garbled loads_oops basic_toupper same_case
           summary_block [] json kept_dump kept_load
           (lit "2025-01-01 12:00:00") false (lit "storm")
           (lit "Expecting value: line 1 column 1 (char 0)") fresh
           {| results := Some [hit 1; hit 2; hit 3] |});
    try reflexivity; try discriminate; cbn; lia.
Defined.

End HandlerProps.
